(** * KG Grill Kitchen: the pricing and totals engine

    A shallow embedding of the pricing core of the KG Grill Kitchen
    storefront (menu data, baseline pricing, price overrides, effective
    prices, cart lines, totals and the haversine distance), with the
    properties of its specification stated and settled against the code.

    JavaScript numbers are IEEE 754 binary64 values: they are modelled by
    the primitive type [float], whose operations are the processor's.
    JavaScript strings are modelled by [string]; objects used as maps by
    [gmap string _]. *)

From Stdlib Require Import ZArith Floats Ascii String.
From stdpp Require Import gmap strings list fin_maps.

Set Warnings "-inexact-float,-register-all".

Local Open Scope Z_scope.

(** ** Numbers *)

Module Num.

(** The integer [z] as a number (exact when [|z| < 2^53], rounded to
    nearest otherwise); [neg] is the sign given to a zero result. *)
Definition of_Z (z : Z) (neg : bool) : float :=
  SF2Prim (binary_normalize prec emax z 0 neg).

(** [x === y] of JavaScript on two numbers: IEEE equality, under which
    [NaN] differs from itself and the two zeros are equal. *)
Definition strict_eq (x y : float) : bool := PrimFloat.eqb x y.

(** ToBoolean on a number: zero and NaN are falsy. *)
Definition truthy (x : float) : bool :=
  negb (PrimFloat.is_zero x || PrimFloat.is_nan x).

(** [x || d] on numbers. *)
Definition or_else (x d : float) : float := if truthy x then x else d.

(** [Number.isFinite]. *)
Definition isFinite (x : float) : bool := PrimFloat.is_finite x.

(** [Math.round x]: the integer nearest to [x], ties towards +infinity;
    a result of zero keeps the sign of [x]. The rounding is done on the
    exact value [m * 2^e] of [x]. *)
Definition round (x : float) : float :=
  match Prim2SF x with
  | S754_finite s m e =>
      let n := if s then Z.neg m else Z.pos m in
      (* floor (n * 2^e + 1/2) *)
      let r := if 0 <=? e then n * 2 ^ e
               else (n + 2 ^ (- e - 1)) / 2 ^ (- e) in
      of_Z r s
  | _ => x
  end.

(** [x % y] of JavaScript: the remainder of the truncating division,
    computed exactly; it has the sign of the dividend. *)
Definition rem (x y : float) : float :=
  match Prim2SF x, Prim2SF y with
  | S754_nan, _ | _, S754_nan => nan
  | S754_infinity _, _ => nan
  | _, S754_zero _ => nan
  | _, S754_infinity _ => x
  | S754_zero _, _ => x
  | S754_finite sx mx ex, S754_finite _ my ey =>
      let e := Z.min ex ey in
      let a := Z.pos mx * 2 ^ (ex - e) in
      let b := Z.pos my * 2 ^ (ey - e) in
      let r := Z.rem a b in
      SF2Prim (binary_normalize prec emax (if sx then - r else r) e sx)
  end.

End Num.

(** ** JavaScript values *)

Module JS.

(** The values [JSON.parse] produces, and [undefined]. An object is a
    finite map from property names to values. *)
Inductive value :=
  | Undefined
  | Null
  | Bool (b : bool)
  | Number (x : float)
  | Str (s : string)
  | Arr (l : list value)
  | Obj (props : gmap string value).

(** The empty object literal. *)
Definition empty_obj : value := Obj ∅.

(** ToBoolean. *)
Definition truthy (v : value) : bool :=
  match v with
  | Undefined | Null => false
  | Bool b => b
  | Number x => Num.truthy x
  | Str s => negb (String.eqb s "")
  | Arr _ | Obj _ => true
  end.

(** [v || d]. *)
Definition or_else (v d : value) : value := if truthy v then v else d.

(** [v?.[k]] for a property name [k] that is neither an array index nor
    the name of a builtin property ([length], [constructor], ...): the
    own property of an object, [undefined] for anything else. The keys
    looked up in this development are [items], [portions], catalog ids
    and portion keys. *)
Definition get (v : value) (k : string) : value :=
  match v with
  | Obj props => default Undefined (props !! k)
  | _ => Undefined
  end.

(** *** parseFloat on strings *)

Definition is_digit (c : ascii) : bool :=
  let n := nat_of_ascii c in (48 <=? n)%nat && (n <=? 57)%nat.

Definition digit_val (c : ascii) : Z := Z.of_nat (nat_of_ascii c) - 48.

(** Strips the leading StrWhiteSpaceChar of a string: TAB, LF, VT, FF, CR,
    SP, and (in UTF-8) U+00A0, U+1680, U+2000..U+200A, U+2028, U+2029,
    U+202F, U+205F, U+3000 and U+FEFF. *)
Fixpoint trimStart (s : string) : string :=
  match s with
  | String c r =>
      let n := nat_of_ascii c in
      if ((9 <=? n)%nat && (n <=? 13)%nat) || (n =? 32)%nat then trimStart r
      else
        match n, r with
        | 194%nat, String c1 r1 =>
            if (nat_of_ascii c1 =? 160)%nat then trimStart r1 else s
        | 225%nat, String c1 (String c2 r2) =>
            if (nat_of_ascii c1 =? 154)%nat && (nat_of_ascii c2 =? 128)%nat
            then trimStart r2 else s
        | 226%nat, String c1 (String c2 r2) =>
            let n1 := nat_of_ascii c1 in
            let n2 := nat_of_ascii c2 in
            if ((n1 =? 128)%nat &&
                (((128 <=? n2)%nat && (n2 <=? 138)%nat)
                 || (n2 =? 168)%nat || (n2 =? 169)%nat || (n2 =? 175)%nat))
               || ((n1 =? 129)%nat && (n2 =? 159)%nat)
            then trimStart r2 else s
        | 227%nat, String c1 (String c2 r2) =>
            if (nat_of_ascii c1 =? 128)%nat && (nat_of_ascii c2 =? 128)%nat
            then trimStart r2 else s
        | 239%nat, String c1 (String c2 r2) =>
            if (nat_of_ascii c1 =? 187)%nat && (nat_of_ascii c2 =? 191)%nat
            then trimStart r2 else s
        | _, _ => s
        end
  | EmptyString => s
  end.

(** The longest run of decimal digits at the head of [s]: its value
    (continuing from [acc]), its length, and the rest of the string. *)
Fixpoint digits (s : string) (acc : Z) (len : Z) : Z * Z * string :=
  match s with
  | String c r =>
      if is_digit c then digits r (10 * acc + digit_val c) (len + 1)
      else (acc, len, s)
  | EmptyString => (acc, len, s)
  end.

(** An optional sign: whether it is [-], and the rest. *)
Definition sign (s : string) : bool * string :=
  match s with
  | String "+" r => (false, r)
  | String "-" r => (true, r)
  | _ => (false, s)
  end.

(** The number nearest to [(-1)^neg * m * 10^d], ties to even. *)
Definition of_decimal (neg : bool) (m d : Z) : float :=
  match m with
  | Z.pos p =>
      if 0 <=? d
      then SF2Prim (binary_normalize prec emax
                      ((if neg then Z.neg p else Z.pos p) * 10 ^ d) 0 neg)
      else SF2Prim (SFdiv prec emax (S754_finite neg p 0)
                      (S754_finite false (Z.to_pos (10 ^ (- d))) 0))
  | _ => if neg then PrimFloat.neg_zero else PrimFloat.zero
  end.

(** The exponent part [e±ddd] at the head of [s], when it is complete. *)
Definition exponent (s : string) : Z :=
  match s with
  | String c r =>
      if (c =? "e")%char || (c =? "E")%char then
        let '(neg, r1) := sign r in
        let '(v, len, _) := digits r1 0 0 in
        if len =? 0 then 0 else if neg then - v else v
      else 0
  | EmptyString => 0
  end.

(** [parseFloat s]: the longest prefix of the trimmed string that is a
    StrDecimalLiteral, as a number; [NaN] when there is none. *)
Definition parseFloat_string (s : string) : float :=
  let '(neg, s1) := sign (trimStart s) in
  if String.prefix "Infinity" s1 then (if neg then neg_infinity else infinity)
  else
    let '(ip, ilen, s2) := digits s1 0 0 in
    let '(m, flen, s3) :=
      match s2 with
      | String "." r =>
          let '(m, flen, r') := digits r ip 0 in
          if (ilen =? 0) && (flen =? 0) then (ip, 0, s2) else (m, flen, r')
      | _ => (ip, 0, s2)
      end in
    if ilen + flen =? 0 then nan
    else of_decimal neg m (exponent s3 - flen).

(** [parseFloat v]. The argument is first converted to a string. For a
    number the conversion and the parse that follows give the number
    back (Number::toString prints a finite number so that it reads back
    as itself, and prints the infinities as [Infinity]), except that
    [-0] prints as [0]. [null], [undefined], booleans and objects print
    as words that start no literal ([[object Object]] for an object; an
    object with a member named [toString] cannot be printed, and is
    outside this model). An array prints its elements separated by
    commas, which end any literal, so only its first element is read. *)
Fixpoint parseFloat (v : value) : float :=
  match v with
  | Number x => if PrimFloat.is_zero x then PrimFloat.zero else x
  | Str s => parseFloat_string s
  | Arr (v0 :: _) => parseFloat v0
  | _ => nan
  end.

(** *** Exceptions *)

Inductive exn := SecurityError | SyntaxError | TypeError.

(** The completion of a piece of code that may throw. *)
Inductive completion (A : Type) :=
  | Normal (a : A)
  | Throw (e : exn).
Arguments Normal {A} a.
Arguments Throw {A} e.

Definition bind {A B} (c : completion A) (k : A -> completion B) : completion B :=
  match c with
  | Normal a => k a
  | Throw e => Throw e
  end.

(** [try { body } catch (err) { handler }], both returning a value. *)
Definition try_catch {A} (body : completion A) (handler : exn -> A) : A :=
  match body with
  | Normal a => a
  | Throw e => handler e
  end.

(** [v.k] (no optional chaining): reading a property of [null] or
    [undefined] throws a TypeError. *)
Definition member (v : value) (k : string) : completion value :=
  match v with
  | Undefined | Null => Throw TypeError
  | _ => Normal (get v k)
  end.

(** *** JSON.parse *)

Definition dquote : ascii := "034"%char.

Fixpoint skip_ws (s : string) : string :=
  match s with
  | String c r =>
      let n := nat_of_ascii c in
      if (n =? 32)%nat || (n =? 9)%nat || (n =? 10)%nat || (n =? 13)%nat
      then skip_ws r else s
  | EmptyString => s
  end.

Definition hex_val (c : ascii) : option Z :=
  let n := Z.of_nat (nat_of_ascii c) in
  if (48 <=? n) && (n <=? 57) then Some (n - 48)
  else if (65 <=? n) && (n <=? 70) then Some (n - 55)
  else if (97 <=? n) && (n <=? 102) then Some (n - 87)
  else None.

Definition byte (n : Z) : ascii := ascii_of_nat (Z.to_nat n).

(** The UTF-8 encoding of a code point (a lone surrogate is encoded like
    any other code point of its range). *)
Definition utf8 (cp : Z) : string :=
  if cp <? 128 then String (byte cp) ""
  else if cp <? 2048 then
    String (byte (192 + cp / 64)) (String (byte (128 + cp mod 64)) "")
  else if cp <? 65536 then
    String (byte (224 + cp / 4096))
      (String (byte (128 + (cp / 64) mod 64)) (String (byte (128 + cp mod 64)) ""))
  else
    String (byte (240 + cp / 262144))
      (String (byte (128 + (cp / 4096) mod 64))
         (String (byte (128 + (cp / 64) mod 64)) (String (byte (128 + cp mod 64)) ""))).

Definition flush (pending : option Z) (acc : string) : string :=
  match pending with
  | Some h => acc ++ utf8 h
  | None => acc
  end.

(** The characters of a string literal after its opening quote, up to the
    closing quote. [pending] is a high surrogate read from a [\u] escape
    and not yet paired. *)
Fixpoint parse_chars (s : string) (pending : option Z) (acc : string)
  : option (string * string) :=
  match s with
  | EmptyString => None
  | String c r =>
      if (c =? dquote)%char then Some (flush pending acc, r)
      else if (c =? "\")%char then
        match r with
        | String e r1 =>
            let simple (b : Z) := parse_chars r1 None (flush pending acc ++ String (byte b) "") in
            if (e =? dquote)%char then simple 34
            else if (e =? "\")%char then simple 92
            else if (e =? "/")%char then simple 47
            else if (e =? "b")%char then simple 8
            else if (e =? "f")%char then simple 12
            else if (e =? "n")%char then simple 10
            else if (e =? "r")%char then simple 13
            else if (e =? "t")%char then simple 9
            else if (e =? "u")%char then
              match r1 with
              | String h1 (String h2 (String h3 (String h4 r2))) =>
                  match hex_val h1, hex_val h2, hex_val h3, hex_val h4 with
                  | Some a, Some b, Some c', Some d =>
                      let u := ((a * 16 + b) * 16 + c') * 16 + d in
                      match pending with
                      | Some h =>
                          if (56320 <=? u) && (u <=? 57343)
                          then parse_chars r2 None
                                 (acc ++ utf8 (65536 + (h - 55296) * 1024 + (u - 56320)))
                          else if (55296 <=? u) && (u <=? 56319)
                          then parse_chars r2 (Some u) (acc ++ utf8 h)
                          else parse_chars r2 None (acc ++ utf8 h ++ utf8 u)
                      | None =>
                          if (55296 <=? u) && (u <=? 56319)
                          then parse_chars r2 (Some u) acc
                          else parse_chars r2 None (acc ++ utf8 u)
                      end
                  | _, _, _, _ => None
                  end
              | _ => None
              end
            else None
        | EmptyString => None
        end
      else if (nat_of_ascii c <? 32)%nat then None
      else parse_chars r None (flush pending acc ++ String c "")
  end.

(** A JSON number at the head of [s]. *)
Definition parse_number (s : string) : option (float * string) :=
  let '(neg, s1) := match s with String "-" r => (true, r) | _ => (false, s) end in
  let int_part :=
    match s1 with
    | String "0" r => Some (0, 1, r)
    | String c _ => if is_digit c then Some (digits s1 0 0) else None
    | EmptyString => None
    end in
  match int_part with
  | None => None
  | Some (ip, _, s2) =>
      let frac :=
        match s2 with
        | String "." r =>
            let '(m, flen, r') := digits r ip 0 in
            if flen =? 0 then None else Some (m, flen, r')
        | _ => Some (ip, 0, s2)
        end in
      match frac with
      | None => None
      | Some (m, flen, s3) =>
          let finish (ex : Z) (rest : string) := Some (of_decimal neg m (ex - flen), rest) in
          match s3 with
          | String c r =>
              if (c =? "e")%char || (c =? "E")%char then
                let '(eneg, r1) := sign r in
                let '(v, len, r2) := digits r1 0 0 in
                if len =? 0 then None else finish (if eneg then - v else v) r2
              else finish 0 s3
          | EmptyString => finish 0 s3
          end
      end
  end.

Definition strip (p s : string) : option string :=
  if String.prefix p s then Some (String.substring (String.length p) (String.length s - String.length p) s)
  else None.

(** A JSON value at the head of [s], with the text that follows it.
    [fuel] bounds the nesting and the number of elements; twice the length
    of the text is enough, since at most two calls are made without
    consuming a character. *)
Fixpoint parse_value (fuel : nat) (s : string) : option (value * string) :=
  match fuel with
  | O => None
  | S fuel =>
      let s := skip_ws s in
      match s with
      | String "{" r =>
          match skip_ws r with
          | String "}" r' => Some (Obj ∅, r')
          | _ => parse_members fuel r ∅
          end
      | String "[" r =>
          match skip_ws r with
          | String "]" r' => Some (Arr [], r')
          | _ => parse_elements fuel r []
          end
      | String c r =>
          if (c =? dquote)%char then
            match parse_chars r None "" with
            | Some (str, r') => Some (Str str, r')
            | None => None
            end
          else
            match strip "true" s, strip "false" s, strip "null" s with
            | Some r', _, _ => Some (Bool true, r')
            | _, Some r', _ => Some (Bool false, r')
            | _, _, Some r' => Some (Null, r')
            | _, _, _ =>
                match parse_number s with
                | Some (x, r') => Some (Number x, r')
                | None => None
                end
            end
      | EmptyString => None
      end
  end
(** The elements of an array after [[] or [,], up to the closing []]. *)
with parse_elements (fuel : nat) (s : string) (acc : list value)
  : option (value * string) :=
  match fuel with
  | O => None
  | S fuel =>
      match parse_value fuel s with
      | Some (v, r) =>
          match skip_ws r with
          | String "," r' => parse_elements fuel r' (acc ++ [v])
          | String "]" r' => Some (Arr (acc ++ [v]), r')
          | _ => None
          end
      | None => None
      end
  end
(** The members of an object after [{] or [,], up to the closing [}]; a
    repeated name keeps its last value. *)
with parse_members (fuel : nat) (s : string) (acc : gmap string value)
  : option (value * string) :=
  match fuel with
  | O => None
  | S fuel =>
      match skip_ws s with
      | String c r =>
          if (c =? dquote)%char then
            match parse_chars r None "" with
            | Some (k, r1) =>
                match skip_ws r1 with
                | String ":" r2 =>
                    match parse_value fuel r2 with
                    | Some (v, r3) =>
                        match skip_ws r3 with
                        | String "," r' => parse_members fuel r' (<[k := v]> acc)
                        | String "}" r' => Some (Obj (<[k := v]> acc), r')
                        | _ => None
                        end
                    | None => None
                    end
                | _ => None
                end
            | None => None
            end
          else None
      | EmptyString => None
      end
  end.

(** [JSON.parse text]: the value the whole text denotes; a SyntaxError
    when it is not a JSON text. *)
Definition JSON_parse (text : string) : completion value :=
  match parse_value (2 * String.length text + 2) text with
  | Some (v, r) =>
      match skip_ws r with
      | EmptyString => Normal v
      | _ => Throw SyntaxError
      end
  | None => Throw SyntaxError
  end.

(** A JSON text written with single quotes for the double ones. *)
Fixpoint json (s : string) : string :=
  match s with
  | String c r => String (if (c =? "'")%char then dquote else c) (json r)
  | EmptyString => EmptyString
  end.

End JS.

(** ** Menu data, baseline pricing and price overrides *)

Local Open Scope float_scope.

Module MenuData.

Definition PRICE_OVERRIDE_STORAGE_KEY : string := "kgPriceOverrides".

(** A menu entry. The description and the image path, which only the
    page layout reads, are left out. *)
Record MenuItem := {
  id : string;
  name : string;
  price : float;
}.

Definition mains : list MenuItem := [
  {| id := "beef_ribs"; name := "Beef Ribs"; price := 16.0 |};
  {| id := "beef_burgers"; name := "Lamb Burger"; price := 5.5 |};
  {| id := "beef_patties"; name := "Beef Patties"; price := 3.5 |};
  {| id := "chicken_wings"; name := "Chicken Wings"; price := 11.0 |};
  {| id := "chicken_quarter"; name := "Chicken Quarter Legs"; price := 18.0 |};
  {| id := "snapper"; name := "Snapper Fish"; price := 26.0 |};
  {| id := "tilapia"; name := "Tilapia (w/ Head)"; price := 21.0 |};
  {| id := "salmon"; name := "Salmon"; price := 21.0 |};
  {| id := "chicken_kabobs"; name := "Chicken Kabobs"; price := 11.0 |};
  {| id := "beef_kabobs"; name := "Beef Kabobs"; price := 11.0 |};
  {| id := "shrimp_kabobs"; name := "Shrimp Kabobs"; price := 11.0 |};
  {| id := "kg_mystery"; name := "KG Surprise Item"; price := 4.0 |}
].

Definition sides : list MenuItem := [
  {| id := "jollof_rice"; name := "Jollof Rice"; price := 6.0 |};
  {| id := "mac_cheese"; name := "Mac & Cheese"; price := 6.0 |};
  {| id := "potato_wedges"; name := "Potato Wedges"; price := 6.0 |};
  {| id := "cassava_leaf"; name := "Cassava Leaf"; price := 21.50 |};
  {| id := "potato_greens"; name := "Potato Greens & White Rice"; price := 21.50 |};
  {| id := "side_chicken_wing"; name := "Chicken Wing (1 piece)"; price := 3.5 |};
  {| id := "side_chicken_kabob"; name := "Chicken Kabob (1 piece)"; price := 3.5 |};
  {| id := "side_beef_kabob"; name := "Beef Kabob (1 piece)"; price := 3.5 |};
  {| id := "side_shrimp_kabob"; name := "Shrimp Kabob (1 piece)"; price := 3.5 |}
].

Record PortionOption := {
  key : string;
  label : string;
  onlinePrice : float;
  inlinePrice : float;
}.

Definition kabob_portions : list PortionOption := [
  {| key := "2_kabobs"; label := "2 kabobs"; onlinePrice := 12; inlinePrice := 10 |};
  {| key := "3_kabobs"; label := "3 kabobs"; onlinePrice := 15; inlinePrice := 13 |};
  {| key := "4_kabobs"; label := "4 kabobs"; onlinePrice := 18; inlinePrice := 15 |}
].

(** The object literal [portionOptions], as its entries in source order. *)
Definition portionOptions_entries : list (string * list PortionOption) := [
  ("beef_ribs", [
    {| key := "1_rib"; label := "1 rib"; onlinePrice := 16; inlinePrice := 15 |};
    {| key := "2_ribs"; label := "2 ribs"; onlinePrice := 21; inlinePrice := 20 |};
    {| key := "3_ribs"; label := "3 ribs"; onlinePrice := 26; inlinePrice := 25 |} ]);
  ("chicken_wings", [
    {| key := "2_wings"; label := "2 wings"; onlinePrice := 11; inlinePrice := 10 |};
    {| key := "3_wings"; label := "3 wings"; onlinePrice := 15; inlinePrice := 13 |};
    {| key := "4_wings"; label := "4 wings"; onlinePrice := 18; inlinePrice := 15 |} ]);
  ("chicken_quarter", [
    {| key := "1_leg"; label := "1 leg"; onlinePrice := 15; inlinePrice := 12 |};
    {| key := "2_legs"; label := "2 legs"; onlinePrice := 23; inlinePrice := 19 |};
    {| key := "3_legs"; label := "3 legs"; onlinePrice := 30; inlinePrice := 26 |} ]);
  ("chicken_kabobs", kabob_portions);
  ("beef_kabobs", kabob_portions);
  ("shrimp_kabobs", kabob_portions)
].

Definition portionOptions : gmap string (list PortionOption) :=
  list_to_map portionOptions_entries.

Definition single_piece_sides : list string :=
  ["side_chicken_wing"; "side_chicken_kabob"; "side_beef_kabob"; "side_shrimp_kabob"].

(** [array.includes(x)] on strings. *)
Definition includes (l : list string) (x : string) : bool :=
  existsb (String.eqb x) l.

Definition computeInlineBasePrice (basePrice : float) (itemId : string) : float :=
  let price := basePrice in
  if includes single_piece_sides itemId then 3.0
  else
    let cents := Num.round (price * 100) in
    let price :=
      if Num.strict_eq (Num.rem cents 100) 50 then (cents - 50) / 100 else price in
    let price :=
      if PrimFloat.abs (price - 16) <? 0.001 then 15 else price in
    price.

(** An entry of the baseline table ([label] only on portion entries). *)
Record Baseline := {
  b_inlinePrice : float;
  b_onlinePrice : float;
  b_markup : float;
  b_label : option string;
}.

Record BaselinePricing := {
  items : gmap string Baseline;
  portions : gmap string (gmap string Baseline);
}.

Definition buildBaselinePricing : BaselinePricing :=
  let allItems := mains ++ sides in
  let items :=
    foldl (fun (tbl : gmap string Baseline) item =>
             let inlinePrice := computeInlineBasePrice (price item) (id item) in
             <[ id item := {| b_inlinePrice := inlinePrice;
                              b_onlinePrice := price item;
                              b_markup := price item - inlinePrice;
                              b_label := None |} ]> tbl)
          ∅ allItems in
  let portions :=
    foldl (fun (tbl : gmap string (gmap string Baseline)) '(itemId, options) =>
             <[ itemId :=
                  foldl (fun (row : gmap string Baseline) opt =>
                           <[ key opt := {| b_inlinePrice := inlinePrice opt;
                                            b_onlinePrice := onlinePrice opt;
                                            b_markup := onlinePrice opt - inlinePrice opt;
                                            b_label := Some (label opt) |} ]> row)
                        ∅ options ]> tbl)
          ∅ portionOptions_entries in
  {| items := items; portions := portions |}.

Definition BASELINE_PRICING : BaselinePricing := buildBaselinePricing.

(** [readNumber]: [None] stands for [null]. *)
Definition readNumber (val : JS.value) : option float :=
  let num := JS.parseFloat val in
  if Num.isFinite num then Some num else None.

(** The persisted overrides document, as [loadPriceOverrides] returns
    it: whatever values the stored document has under [items] and
    [portions]. *)
Record PriceOverrides := {
  o_items : JS.value;
  o_portions : JS.value;
}.

Definition empty_overrides : PriceOverrides :=
  {| o_items := JS.empty_obj; o_portions := JS.empty_obj |}.

(** The browser's [localStorage]: unavailable (every access throws, as
    when storage is disabled), or a store of strings. *)
Inductive Storage :=
  | Unavailable
  | Available (entries : gmap string string).

(** [localStorage.getItem(k)]: [None] stands for [null]. *)
Definition getItem (ls : Storage) (k : string) : JS.completion (option string) :=
  match ls with
  | Unavailable => JS.Throw JS.SecurityError
  | Available entries => JS.Normal (entries !! k)
  end.

(** [loadPriceOverrides]. The warning written to the console in the
    handler is not modelled. *)
Definition loadPriceOverrides (localStorage : Storage) : PriceOverrides :=
  JS.try_catch
    (JS.bind (getItem localStorage PRICE_OVERRIDE_STORAGE_KEY) (fun raw =>
       match raw with
       | None | Some EmptyString => JS.Normal empty_overrides
       | Some raw =>
           JS.bind (JS.JSON_parse raw) (fun parsed =>
           JS.bind (JS.member parsed "items") (fun its =>
           JS.bind (JS.member parsed "portions") (fun pos =>
           JS.Normal {| o_items := JS.or_else its JS.empty_obj;
                        o_portions := JS.or_else pos JS.empty_obj |})))
       end))
    (fun err => empty_overrides).

(** The prices [getEffectivePrices] returns. *)
Record Prices := {
  inline : float;
  online : float;
  markup : float;
}.

(** [if (portionKey)]: a portion key that is neither [null] nor empty. *)
Definition given (portionKey : option string) : option string :=
  match portionKey with
  | Some EmptyString | None => None
  | Some k => Some k
  end.

(** [getEffectivePrices(itemId, portionKey, overrides)]; [None] stands
    for the [null] it returns when there is no baseline entry. *)
Definition getEffectivePrices (itemId : string) (portionKey : option string)
    (overrides : PriceOverrides) : option Prices :=
  match given portionKey with
  | Some portionKey =>
      match portions BASELINE_PRICING !! itemId ≫= (fun row => row !! portionKey) with
      | None => None
      | Some base =>
          let overrideInline :=
            readNumber (JS.get (JS.get (o_portions overrides) itemId) portionKey) in
          let inline := match overrideInline with
                        | Some v => v
                        | None => b_inlinePrice base
                        end in
          let online := inline + b_markup base in
          Some {| inline := inline; online := online; markup := b_markup base |}
      end
  | None =>
      match items BASELINE_PRICING !! itemId with
      | None => None
      | Some base =>
          let overrideInline := readNumber (JS.get (o_items overrides) itemId) in
          let inline := match overrideInline with
                        | Some v => v
                        | None => b_inlinePrice base
                        end in
          let online := inline + b_markup base in
          Some {| inline := inline; online := online; markup := b_markup base |}
      end
  end.

End MenuData.

Local Close Scope float_scope.

(** ** The storefront: cart, totals, distance *)

Local Open Scope float_scope.

Module Storefront.
Import MenuData.

(** *** Distance and delivery fee *)

(** The functions of [Math] whose results the language leaves to the
    implementation, and the [**] operator. *)
Class MathLib := {
  Math_sin : float -> float;
  Math_cos : float -> float;
  Math_atan2 : float -> float -> float;
  Math_pow : float -> float -> float;
}.

Definition Math_PI : float := 3.141592653589793.

Section Distance.
Context {M : MathLib}.

Definition toRad (deg : float) : float := deg * Math_PI / 180.

Definition computeDistanceMiles (lat1 lon1 lat2 lon2 : float) : float :=
  let R := 6371 in
  let dLat := toRad (lat2 - lat1) in
  let dLon := toRad (lon2 - lon1) in
  let a := Math_pow (Math_sin (dLat / 2)) 2
           + Math_cos (toRad lat1) * Math_cos (toRad lat2)
             * Math_pow (Math_sin (dLon / 2)) 2 in
  let c := 2 * Math_atan2 (PrimFloat.sqrt a) (PrimFloat.sqrt (1 - a)) in
  let distanceKm := R * c in
  distanceKm * 0.621371.

End Distance.

Definition computeDeliveryFee (distanceMiles : float) : float :=
  let baseFee := 3.0 in
  let perMile := 1.0 in
  baseFee + distanceMiles * perMile.

(** *** State *)

(** A line of the cart: the fields of the menu item it was made from,
    with [name] and [price] replaced, and the fields [addToCart] adds.
    [None] stands for a property that is absent (or [null], for
    [baseInlinePrice]). *)
Record CartLine := {
  id : string;
  name : string;
  price : float;
  quantity : float;
  baseOnlinePrice : float;
  baseInlinePrice : option float;
  plateOptionKey : option string;
  plateOptionLabel : option string;
  sauce : option string;
  freeSide : option string;
}.

(** [currentTipPercent]: a number, or the string ['custom']. *)
Inductive TipPercent := Percent (p : float) | Custom.

(** The globals of the script that the pricing core reads and writes,
    and what it reads of the page: the value of the checked [orderType]
    radio button ([None] when none is checked) and whether the page has
    the tip section. The page is taken to have the elements the script
    uses without a guard. *)
Record State := {
  cart : list CartLine;
  checkedOrderType : option string;
  deliveryFee : float;
  currentTipPercent : TipPercent;
  currentTipAmount : float;
  orderingClosed : bool;
  inlinePreviewMode : bool;
  priceOverrides : PriceOverrides;
  hasTipSection : bool;
}.

Definition set_cart (c : list CartLine) (st : State) : State :=
  {| cart := c; checkedOrderType := checkedOrderType st;
     deliveryFee := deliveryFee st; currentTipPercent := currentTipPercent st;
     currentTipAmount := currentTipAmount st; orderingClosed := orderingClosed st;
     inlinePreviewMode := inlinePreviewMode st; priceOverrides := priceOverrides st;
     hasTipSection := hasTipSection st |}.

Definition set_tip (p : TipPercent) (a : float) (st : State) : State :=
  {| cart := cart st; checkedOrderType := checkedOrderType st;
     deliveryFee := deliveryFee st; currentTipPercent := p;
     currentTipAmount := a; orderingClosed := orderingClosed st;
     inlinePreviewMode := inlinePreviewMode st; priceOverrides := priceOverrides st;
     hasTipSection := hasTipSection st |}.

(** The effect of [setInlinePreviewMode] on the state (the rest of it
    restyles the page). *)
Definition setInlinePreviewMode (enabled : bool) (st : State) : State :=
  {| cart := cart st; checkedOrderType := checkedOrderType st;
     deliveryFee := deliveryFee st; currentTipPercent := currentTipPercent st;
     currentTipAmount := currentTipAmount st; orderingClosed := orderingClosed st;
     inlinePreviewMode := enabled; priceOverrides := priceOverrides st;
     hasTipSection := hasTipSection st |}.

(** [document.querySelector('input[name="orderType"]:checked')?.value || 'pickup'] *)
Definition getCurrentOrderType (st : State) : string :=
  match checkedOrderType st with
  | Some EmptyString | None => "pickup"
  | Some v => v
  end.

(** *** Totals *)

Record Totals := {
  subtotal : float;
  fees : float;
  t_deliveryFee : float;
  tip : float;
  grand : float;
}.

(** [cart.reduce((sum, item) => sum + item.price * item.quantity, 0)] *)
Definition cart_subtotal (c : list CartLine) : float :=
  foldl (fun sum item => sum + price item * quantity item) 0 c.

(** [computeTotals]: the breakdown it returns, and the state it leaves
    (it leaves the inline preview mode when the order is not inline). *)
Definition computeTotals (st : State) : Totals * State :=
  let subtotal := cart_subtotal (cart st) in
  let orderType := getCurrentOrderType st in
  let fees := 0 in
  let st := if negb (String.eqb orderType "inline")
            then setInlinePreviewMode false st else st in
  let delivery := if String.eqb orderType "delivery"
                  then Num.or_else (deliveryFee st) 0 else 0 in
  let tip := if String.eqb orderType "delivery"
             then Num.or_else (currentTipAmount st) 0 else 0 in
  let total := subtotal + fees + delivery + tip in
  ({| subtotal := subtotal; fees := fees; t_deliveryFee := delivery;
      tip := tip; grand := total |}, st).

(** The effect of [updateTipSection] on the state: outside delivery, or
    with an empty cart, the tip is reset. *)
Definition updateTipSection (st : State) : State :=
  if negb (hasTipSection st) then st
  else if negb (String.eqb (getCurrentOrderType st) "delivery")
          || (match cart st with [] => true | _ => false end)
       then set_tip (Percent 0) 0 st
       else st.

(** The effect of [updateCartTotals] on the state (it writes the totals
    to the page and to the payment request). *)
Definition updateCartTotals (st : State) : State :=
  updateTipSection (snd (computeTotals st)).

(** The effect of [renderCart] on the state (it rebuilds the rows of the
    cart panel). *)
Definition renderCart (st : State) : State :=
  updateTipSection (updateCartTotals st).

(** *** Pricing of a line *)

Definition getEffectivePricingForItem (itemId : string) (itemPrice : float)
    (portionKey : option string) (overrides : PriceOverrides) : option Prices :=
  match getEffectivePrices itemId portionKey overrides with
  | Some pricing => Some pricing
  | None =>
      match given portionKey with
      | Some portionKey =>
          let opts := default [] (portionOptions !! itemId) in
          let fallback :=
            match List.find (fun o => String.eqb (key o) portionKey) opts with
            | Some o => Some o
            | None => head opts
            end in
          match fallback with
          | Some fallback =>
              Some {| inline := inlinePrice fallback;
                      online := onlinePrice fallback;
                      markup := onlinePrice fallback - inlinePrice fallback |}
          | None => None
          end
      | None =>
          let inline := computeInlineBasePrice itemPrice itemId in
          Some {| inline := inline; online := itemPrice;
                  markup := itemPrice - inline |}
      end
  end.

(** *** Cart operations *)

Definition sauceEligibleIds : list string :=
  ["beef_ribs"; "beef_burgers"; "chicken_wings"; "chicken_quarter";
   "snapper"; "tilapia"; "salmon";
   "chicken_kabobs"; "beef_kabobs"; "shrimp_kabobs"].

Definition freeSideEligibleIds : list string :=
  map MenuData.id
    (filter (fun item => negb (includes ["beef_burgers"; "beef_patties"; "kg_mystery"]
                                        (MenuData.id item)))
            mains).

Definition freeSideChoices : list (string * string) :=
  [("jollof_rice", "Jollof Rice"); ("mac_cheese", "Mac & Cheese");
   ("potato_wedges", "Potato Wedges")].

(** The test of [cart.find] in [addToCart]: same item, and same plate
    option once an absent or empty key is read as [null]. *)
Definition same_line (itemId : string) (plateKey : option string) (ci : CartLine) : Prop :=
  id ci = itemId /\ given (plateOptionKey ci) = given plateKey.

#[global] Instance same_line_dec itemId plateKey ci : Decision (same_line itemId plateKey ci).
Proof. unfold same_line. apply _. Defined.

(** [ensureOrderingOpenOrWarn]: whether ordering is open (when it is
    not, the customer is shown the closed message). *)
Definition ensureOrderingOpenOrWarn (st : State) : bool :=
  negb (orderingClosed st).

Definition addToCart (item : MenuItem) (portionOption : option PortionOption)
    (st : State) : State :=
  if negb (ensureOrderingOpenOrWarn st) then st
  else
    let orderType := getCurrentOrderType st in
    let pricing :=
      getEffectivePricingForItem (MenuData.id item) (MenuData.price item)
        (given (key <$> portionOption)) (priceOverrides st) in
    let baseOnlinePrice := default (MenuData.price item) (online <$> pricing) in
    let baseInlinePrice := inline <$> pricing in
    let plateOptionKey := key <$> portionOption in
    let plateOptionLabel := label <$> portionOption in
    let displayName :=
      match portionOption with
      | Some po => (MenuData.name item ++ " – " ++ label po)%string
      | None => MenuData.name item
      end in
    let baseInlinePrice :=
      match portionOption with
      | Some _ => baseInlinePrice
      | None =>
          match baseInlinePrice with
          | Some p => Some p
          | None => Some (computeInlineBasePrice baseOnlinePrice (MenuData.id item))
          end
      end in
    let effectivePrice :=
      if String.eqb orderType "inline"
      then default baseOnlinePrice baseInlinePrice
      else baseOnlinePrice in
    let cart' :=
      match list_find (same_line (MenuData.id item) plateOptionKey) (cart st) with
      | Some (idx, existing) =>
          <[ idx := {| id := id existing; name := name existing;
                       price := effectivePrice;
                       quantity := quantity existing + 1;
                       baseOnlinePrice := baseOnlinePrice;
                       baseInlinePrice := baseInlinePrice;
                       plateOptionKey := Storefront.plateOptionKey existing;
                       plateOptionLabel := Storefront.plateOptionLabel existing;
                       sauce := sauce existing; freeSide := freeSide existing |} ]>
            (cart st)
      | None =>
          cart st ++ [
            {| id := MenuData.id item; name := displayName;
               price := effectivePrice;
               quantity := 1;
               baseOnlinePrice := baseOnlinePrice;
               baseInlinePrice := baseInlinePrice;
               plateOptionKey := given plateOptionKey;
               plateOptionLabel := match given plateOptionKey with
                                   | Some _ => plateOptionLabel
                                   | None => None
                                   end;
               sauce := if includes sauceEligibleIds (MenuData.id item)
                        then Some "none" else None;
               freeSide := if includes freeSideEligibleIds (MenuData.id item)
                           then Some (default "" (fst <$> head freeSideChoices))
                           else None |} ]
      end in
    updateCartTotals (renderCart (set_cart cart' st)).

Definition add_quantity (delta : float) (ci : CartLine) : CartLine :=
  {| id := id ci; name := name ci; price := price ci;
     quantity := quantity ci + delta;
     baseOnlinePrice := baseOnlinePrice ci; baseInlinePrice := baseInlinePrice ci;
     plateOptionKey := plateOptionKey ci; plateOptionLabel := plateOptionLabel ci;
     sauce := sauce ci; freeSide := freeSide ci |}.

Definition updateQuantity (itemId : string) (delta : float) (st : State) : State :=
  match list_find (fun ci => id ci = itemId) (cart st) with
  | Some (idx, line) =>
      let line' := add_quantity delta line in
      let cart' := if quantity line' <=? 0
                   then delete idx (cart st)
                   else <[ idx := line' ]> (cart st) in
      renderCart (set_cart cart' st)
  | None => st
  end.

(** The listeners [renderCart] puts on the buttons of the row of the
    [i]-th cart line: [updateQuantity(item.id, -1)] and
    [updateQuantity(item.id, 1)], [item] being that line. *)
Definition clickDecrease (i : nat) (st : State) : State :=
  match cart st !! i with
  | Some item => updateQuantity (id item) (-1) st
  | None => st
  end.

Definition clickIncrease (i : nat) (st : State) : State :=
  match cart st !! i with
  | Some item => updateQuantity (id item) 1 st
  | None => st
  end.

End Storefront.

Local Close Scope float_scope.

(** ** The storefront: ordering status, menu cards, order type, tips, checkout *)

Local Open Scope float_scope.

Module Page.
Import MenuData Storefront.

(** *** Ordering status *)

Definition ORDERING_STATUS_STORAGE_KEY : string := "kgOrderingStatus".

Definition DEFAULT_CLOSED_MESSAGE : string :=
  "Sorry, we are currently closed. Please check back when we are open.".

(** What [readOrderingStatus] returns: [closed] is a boolean, [message]
    whatever truthy value the stored document has, or the default text. *)
Record OrderingStatus := {
  closed : bool;
  message : JS.value;
}.

Definition open_status : OrderingStatus :=
  {| closed := false; message := JS.Str DEFAULT_CLOSED_MESSAGE |}.

(** [readOrderingStatus]. The warning written to the console in the
    handler is not modelled. *)
Definition readOrderingStatus (localStorage : Storage) : OrderingStatus :=
  JS.try_catch
    (JS.bind (getItem localStorage ORDERING_STATUS_STORAGE_KEY) (fun raw =>
       match raw with
       | None | Some EmptyString => JS.Normal open_status
       | Some raw =>
           JS.bind (JS.JSON_parse raw) (fun parsed =>
           JS.Normal {| closed := JS.truthy (JS.get parsed "closed");
                        message := JS.or_else (JS.get parsed "message")
                                              (JS.Str DEFAULT_CLOSED_MESSAGE) |})
       end))
    (fun err => open_status).

(** [applyOrderingStatus]: the state it leaves, and the value it gives
    the global [orderingClosedMessage], which is only shown to the
    customer (the rest of it updates the banner and the buttons). *)
Definition applyOrderingStatus (status : OrderingStatus) (st : State) : State * JS.value :=
  ({| cart := cart st; checkedOrderType := checkedOrderType st;
      deliveryFee := deliveryFee st; currentTipPercent := currentTipPercent st;
      currentTipAmount := currentTipAmount st; orderingClosed := closed status;
      inlinePreviewMode := inlinePreviewMode st; priceOverrides := priceOverrides st;
      hasTipSection := hasTipSection st |},
   JS.or_else (message status) (JS.Str DEFAULT_CLOSED_MESSAGE)).

Definition syncOrderingStatusFromStorage (localStorage : Storage) (st : State)
    : State * JS.value :=
  applyOrderingStatus (readOrderingStatus localStorage) st.

(** *** Menu cards *)

(** The array index a number names: the number itself when it is a
    non-negative integer ([-0] names index 0), none otherwise. *)
Definition to_index (x : float) : option Z :=
  match Prim2SF x with
  | S754_zero _ => Some 0%Z
  | S754_finite false m e =>
      if (0 <=? e)%Z then Some (Z.pos m * 2 ^ e)%Z
      else if (Z.pos m mod 2 ^ (- e) =? 0)%Z then Some (Z.pos m / 2 ^ (- e))%Z
      else None
  | _ => None
  end.

(** [l[x]] for an array [l] and a number [x]; [None] stands for
    [undefined]. *)
Definition at_number {A} (l : list A) (x : float) : option A :=
  match to_index x with
  | Some i => if (i <? Z.of_nat (length l))%Z then l !! Z.to_nat i else None
  | None => None
  end.

(** [getPortionPriceForOrderType]; it reads the global [priceOverrides],
    passed as [overrides]. The item it prices is the object with the
    [id] alone: its missing price, read only for an empty portion key
    (no option of the catalog has one), is given as NaN. *)
Definition getPortionPriceForOrderType (itemId : string) (portionKeyOrIndex : JS.value)
    (orderType : string) (overrides : PriceOverrides) : option (PortionOption * float) :=
  match portionOptions !! itemId with
  | None | Some [] => None
  | Some ((first :: _) as options) =>
      let opt :=
        match portionKeyOrIndex with
        | JS.Number x => default first (at_number options x)
        | JS.Str k => default first (List.find (fun o => String.eqb (key o) k) options)
        | _ => first
        end in
      let pricing := getEffectivePricingForItem itemId nan (Some (key opt)) overrides in
      let price :=
        match pricing with
        | Some pricing => if String.eqb orderType "inline" then inline pricing
                          else online pricing
        | None => if String.eqb orderType "inline" then inlinePrice opt
                  else onlinePrice opt
        end in
      Some ({| key := key opt; label := label opt;
               onlinePrice := match pricing with
                              | Some pricing => online pricing
                              | None => onlinePrice opt
                              end;
               inlinePrice := match pricing with
                              | Some pricing => inline pricing
                              | None => inlinePrice opt
                              end |},
            price)
  end.


(** The listener [createCard] puts on the [Add to Cart] button of the
    card of [item], the portion select holding [index]. *)
Definition clickAddToCart (item : MenuItem) (index : float) (st : State) : State :=
  let selectedPortion :=
    match portionOptions !! MenuData.id item with
    | Some _ =>
        fst <$> getPortionPriceForOrderType (MenuData.id item) (JS.Number index)
                  (getCurrentOrderType st) (priceOverrides st)
    | None => None
    end in
  addToCart item selectedPortion st.

(** The [effectivePrice] of [addToCart]: the unit price it gives the line
    it adds or raises. *)
Definition effectivePrice (item : MenuItem) (portionOption : option PortionOption)
    (st : State) : float :=
  let pricing :=
    getEffectivePricingForItem (MenuData.id item) (MenuData.price item)
      (given (key <$> portionOption)) (priceOverrides st) in
  let baseOnlinePrice := default (MenuData.price item) (online <$> pricing) in
  let baseInlinePrice :=
    match portionOption with
    | Some _ => inline <$> pricing
    | None =>
        match inline <$> pricing with
        | Some p => Some p
        | None => Some (computeInlineBasePrice baseOnlinePrice (MenuData.id item))
        end
    end in
  if String.eqb (getCurrentOrderType st) "inline"
  then default baseOnlinePrice baseInlinePrice
  else baseOnlinePrice.

(** *** Prices of the cart lines at a change of order type or of overrides *)

(** The callback of [cart.forEach] in [applyPricingForOrderType]. *)
Definition applyPricingToLine (orderType : string) (overrides : PriceOverrides)
    (ci : CartLine) : CartLine :=
  let pricing :=
    getEffectivePricingForItem (id ci) (price ci) (given (plateOptionKey ci)) overrides in
  let baseOnline := match pricing with
                    | Some pricing => online pricing
                    | None => baseOnlinePrice ci
                    end in
  let baseInline := match pricing with
                    | Some pricing => inline pricing
                    | None =>
                        match baseInlinePrice ci with
                        | Some p => p
                        | None => computeInlineBasePrice baseOnline (id ci)
                        end
                    end in
  {| id := id ci; name := name ci;
     price := if String.eqb orderType "inline" then baseInline else baseOnline;
     quantity := quantity ci;
     baseOnlinePrice := baseOnline; baseInlinePrice := Some baseInline;
     plateOptionKey := plateOptionKey ci; plateOptionLabel := plateOptionLabel ci;
     sauce := sauce ci; freeSide := freeSide ci |}.

(** The effect of [applyPricingForOrderType] on the state (it also
    rewrites the prices on the menu cards, see [displayPrice]). *)
Definition applyPricingForOrderType (st : State) : State :=
  set_cart (map (applyPricingToLine (getCurrentOrderType st) (priceOverrides st)) (cart st)) st.

Definition set_deliveryFee (fee : float) (st : State) : State :=
  {| cart := cart st; checkedOrderType := checkedOrderType st;
     deliveryFee := fee; currentTipPercent := currentTipPercent st;
     currentTipAmount := currentTipAmount st; orderingClosed := orderingClosed st;
     inlinePreviewMode := inlinePreviewMode st; priceOverrides := priceOverrides st;
     hasTipSection := hasTipSection st |}.


Definition set_checkedOrderType (checked : option string) (st : State) : State :=
  {| cart := cart st; checkedOrderType := checked;
     deliveryFee := deliveryFee st; currentTipPercent := currentTipPercent st;
     currentTipAmount := currentTipAmount st; orderingClosed := orderingClosed st;
     inlinePreviewMode := inlinePreviewMode st; priceOverrides := priceOverrides st;
     hasTipSection := hasTipSection st |}.

(** [localStorage.setItem(k, v)]. A store that is available takes the
    write: a store that is full is not modelled. *)
Definition setItem (ls : Storage) (k v : string) : JS.completion Storage :=
  match ls with
  | Unavailable => JS.Throw JS.SecurityError
  | Available entries => JS.Normal (Available (<[ k := v ]> entries))
  end.

Definition saveField (ls : Storage) (k v : string) : JS.completion Storage :=
  match v with
  | EmptyString => JS.Normal ls
  | _ => setItem ls k v
  end.

(** [updateOrderType], up to the requests it starts when the order is
    for delivery (their answers set the delivery fee later, through
    [showMapAndDistance]): the store it leaves, or the exception it
    throws, and the state at that point. *)
Definition updateOrderType (ls : Storage) (st : State) : JS.completion Storage * State :=
  let orderType := getCurrentOrderType st in
  let st := if String.eqb orderType "delivery" then st
            else updateCartTotals (set_deliveryFee 0 st) in
  match saveField ls "kg_orderType" orderType with
  | JS.Throw e => (JS.Throw e, st)
  | JS.Normal ls =>
      (JS.Normal ls,
       updateCartTotals (updateTipSection (renderCart (applyPricingForOrderType st))))
  end.


(** *** Tips *)

(** The listener of a tip button whose [data-tip-percent] is [pctAttr]. *)
Definition clickTipButton (pctAttr : string) (st : State) : State :=
  let subtotal := cart_subtotal (cart st) in
  let fees := subtotal * 0.1 in
  let base := subtotal + fees + Num.or_else (deliveryFee st) 0 in
  let st := if String.eqb pctAttr "custom"
            then set_tip Custom (currentTipAmount st) st
            else let pct := JS.parseFloat_string pctAttr in
                 set_tip (Percent pct) (base * pct) st in
  updateCartTotals st.

(** The listener of the custom tip input, holding the text [value]. *)
Definition inputCustomTip (value : string) (st : State) : State :=
  let val := JS.parseFloat_string value in
  updateCartTotals
    (set_tip Custom (if Num.isFinite val && (0 <? val) then val else 0) st).

(** *** Location: delivery fee and in-store radius *)

Record Coords := {
  lat : float;
  lon : float;
}.

Definition restaurantCoords : Coords := {| lat := 39.9448; lon := -75.2390 |}.

Definition INLINE_RADIUS_MILES : float := 1.0.

(** What the browser answers to [navigator.geolocation.getCurrentPosition]:
    there is no geolocation, the error callback is called, or the success
    callback is called with a position. *)
Inductive Geolocation :=
  | NoGeolocation
  | PositionError
  | Position (latitude longitude : float).

Section Location.
Context {M : MathLib}.

(** The effect of [showMapAndDistance] on the state; it reads the global
    [userCoords], passed as an argument. *)
Definition showMapAndDistance (userCoords : option Coords) (st : State) : State :=
  match userCoords with
  | None => st
  | Some user =>
      let distance := computeDistanceMiles (lat restaurantCoords) (lon restaurantCoords)
                        (lat user) (lon user) in
      updateCartTotals (set_deliveryFee (computeDeliveryFee distance) st)
  end.

(** [requireInlineProximity({allowPreviewMode})]: the value its promise
    resolves to, with the global [userCoords] (read in [userCoords],
    returned first) and the state it leaves. *)
Definition requireInlineProximity (allowPreviewMode : bool) (geo : Geolocation)
    (userCoords : option Coords) (st : State) : option Coords * State * bool :=
  match geo with
  | NoGeolocation => (userCoords, st, false)
  | Position latitude longitude =>
      let user := {| lat := latitude; lon := longitude |} in
      let dMiles := computeDistanceMiles (lat user) (lon user)
                      (lat restaurantCoords) (lon restaurantCoords) in
      if dMiles <=? INLINE_RADIUS_MILES
      then (Some user, setInlinePreviewMode false st, true)
      else (Some user, setInlinePreviewMode true st, allowPreviewMode)
  | PositionError => (userCoords, setInlinePreviewMode false st, false)
  end.


End Location.

(** *** Checkout *)

(** A line of the cart as sent to the backend, the unit price in cents;
    [None] stands for [null]. *)
Record OrderLine := {
  l_id : string;
  l_name : string;
  l_unitPrice : float;
  l_quantity : float;
  l_sauce : option string;
  l_freeSide : option string;
}.

(** The callback of [cart.map] in [startStripeCheckout] (and, with the
    same fields apart from [id], in the other requests). *)
Definition orderLine (i : CartLine) : OrderLine :=
  {| l_id := id i; l_name := name i;
     l_unitPrice := Num.round (price i * 100);
     l_quantity := quantity i;
     l_sauce := given (sauce i); l_freeSide := given (freeSide i) |}.

(** The request [startStripeCheckout] sends, for the values [name],
    [phone] and [addressLine1] of the customer's fields once trimmed
    (they are copied to the request as they are, and left out here),
    and the state it leaves; [None] when it returns without sending. *)
Record CheckoutSession := {
  cs_fulfilment : string;
  tipCents : float;
  simplifiedCart : list OrderLine;
}.

Definition startStripeCheckout (name phone addressLine1 : string) (st : State)
    : option CheckoutSession * State :=
  match cart st with
  | [] => (None, st)
  | _ =>
      let fulfilment := getCurrentOrderType st in
      if String.eqb name "" || String.eqb phone ""
         || (String.eqb fulfilment "delivery" && String.eqb addressLine1 "")
      then (None, st)
      else
        let '(totals, st) := computeTotals st in
        let fees := Num.or_else (Storefront.fees totals) 0 in
        let delivery := Num.or_else (t_deliveryFee totals) 0 in
        let tip := Num.or_else (Storefront.tip totals) 0 in
        let simplifiedCart := map orderLine (cart st) in
        let deliveryCents := Num.round (delivery * 100) in
        let simplifiedCart :=
          if 0 <? deliveryCents
          then simplifiedCart ++ [ {| l_id := "delivery_fee"; l_name := "Delivery fee";
                                      l_unitPrice := deliveryCents; l_quantity := 1;
                                      l_sauce := None; l_freeSide := None |} ]
          else simplifiedCart in
        let feesCents := Num.round (fees * 100) in
        let simplifiedCart :=
          if 0 <? feesCents
          then simplifiedCart ++ [ {| l_id := "service_tax"; l_name := "Service & tax";
                                      l_unitPrice := feesCents; l_quantity := 1;
                                      l_sauce := None; l_freeSide := None |} ]
          else simplifiedCart in
        (Some {| cs_fulfilment := fulfilment; tipCents := Num.round (tip * 100);
                 simplifiedCart := simplifiedCart |}, st)
  end.

(** The amounts and the lines of the request [submitInlineOrder] sends. *)
Record LineOrder := {
  lo_items : list OrderLine;
  lo_subtotal : float;
  lo_deliveryFee : float;
  lo_fees : float;
  lo_total : float;
}.

Section InlineOrder.
Context {M : MathLib}.

(** [submitInlineOrder] up to the request it sends, for the values
    [name] and [phone] of the customer's fields once trimmed: the
    request ([None] when it returns [false] without sending), the global
    [userCoords] and the state at that point. *)
Definition submitInlineOrder (name phone : string) (geo : Geolocation)
    (userCoords : option Coords) (st : State)
    : option LineOrder * option Coords * State :=
  if String.eqb name "" || String.eqb phone "" then (None, userCoords, st)
  else
    match cart st with
    | [] => (None, userCoords, st)
    | _ =>
        if inlinePreviewMode st then (None, userCoords, st)
        else
          let '(userCoords, st, nearbyOk) :=
            requireInlineProximity false geo userCoords st in
          if negb nearbyOk then (None, userCoords, st)
          else
            let '(totals, st) := computeTotals st in
            (Some {| lo_items := map orderLine (cart st);
                     lo_subtotal := Num.round (subtotal totals * 100);
                     lo_deliveryFee := 0;
                     lo_fees := Num.round (Num.or_else (Storefront.fees totals) 0 * 100);
                     lo_total := Num.round (grand totals * 100) |},
             userCoords, st)
    end.

End InlineOrder.

End Page.

Local Close Scope float_scope.

(** * Checks of the model on known values *)

(** [Math.round] and [%]. *)
Example round_examples :
  Num.round 2150%float = 2150%float /\
  Num.round 2.5%float = 3%float /\
  Num.round (-2.5)%float = (-2)%float /\
  Num.round 0.49999999999999994%float = 0%float /\
  Num.round (-0.3)%float = (-0)%float /\
  Num.round 2150.3%float = 2150%float.
Proof. repeat split; vm_compute; reflexivity. Qed.

Example rem_examples :
  Num.rem 2150%float 100%float = 50%float /\
  Num.rem (-350)%float 100%float = (-50)%float /\
  Num.rem 5.5%float 2%float = 1.5%float /\
  Num.rem 1e300%float 7%float = 1%float.
Proof. repeat split; vm_compute; reflexivity. Qed.

(** [parseFloat] on strings: prefixes, exponents, rounding to nearest at
    the ends of the range. *)
Example parseFloat_examples :
  JS.parseFloat_string "12" = 12%float /\
  JS.parseFloat_string "  12.75abc" = 12.75%float /\
  JS.parseFloat_string "-.5e1x" = (-5)%float /\
  JS.parseFloat_string "7.03" = 7.03%float /\
  JS.parseFloat_string "0.1e" = 0.1%float /\
  JS.parseFloat_string "5." = 5%float /\
  JS.parseFloat_string "1e400" = infinity /\
  JS.parseFloat_string "-Infinityx" = neg_infinity /\
  JS.parseFloat_string "4.9e-324" = 4.9e-324%float /\
  JS.parseFloat_string "2.4703282292062328e-324" = 4.9e-324%float /\
  JS.parseFloat_string "2.4703282292062327e-324" = 0%float /\
  JS.parseFloat_string "1.7976931348623157e308" = 1.7976931348623157e308%float /\
  JS.parseFloat_string "9007199254740993" = 9007199254740992%float /\
  JS.parseFloat_string "0.30000000000000004" = (0.1 + 0.2)%float /\
  JS.parseFloat_string "-0" = neg_zero /\
  PrimFloat.is_nan (JS.parseFloat_string "abc") = true /\
  PrimFloat.is_nan (JS.parseFloat_string ".") = true /\
  PrimFloat.is_nan (JS.parseFloat_string "") = true /\
  PrimFloat.is_nan (JS.parseFloat_string "e5") = true.
Proof. repeat split; vm_compute; reflexivity. Qed.

(** [JSON.parse]: values, escapes, repeated names, and texts that are
    not JSON. *)
Example JSON_parse_examples :
  JS.JSON_parse (JS.json "{'items':{'cassava_leaf':12.5},'portions':{}}")
    = JS.Normal (JS.Obj (<["items" := JS.Obj {["cassava_leaf" := JS.Number 12.5]}]>
                         (<["portions" := JS.Obj ∅]> ∅))) /\
  JS.JSON_parse (JS.json " [1, -0.5e1 ,'a\nbA', true,false, null, [ ], { } ] ")
    = JS.Normal (JS.Arr [JS.Number 1; JS.Number (-5); JS.Str (String "a" (String "010" "bA"));
                         JS.Bool true; JS.Bool false; JS.Null; JS.Arr []; JS.Obj ∅]) /\
  JS.JSON_parse "null" = JS.Normal JS.Null /\
  JS.JSON_parse (JS.json "{'a':1,'a':2}") = JS.Normal (JS.Obj {["a" := JS.Number 2]}) /\
  JS.JSON_parse "[[[[[[1]]]]]]" = JS.Normal (JS.Arr [JS.Arr [JS.Arr [JS.Arr [JS.Arr [JS.Arr [JS.Number 1]]]]]]) /\
  JS.JSON_parse "01" = JS.Throw JS.SyntaxError /\
  JS.JSON_parse "1." = JS.Throw JS.SyntaxError /\
  JS.JSON_parse ".5" = JS.Throw JS.SyntaxError /\
  JS.JSON_parse "+1" = JS.Throw JS.SyntaxError /\
  JS.JSON_parse "[1,]" = JS.Throw JS.SyntaxError /\
  JS.JSON_parse (JS.json "{'a':1,}") = JS.Throw JS.SyntaxError /\
  JS.JSON_parse "{items:1}" = JS.Throw JS.SyntaxError /\
  JS.JSON_parse "nul" = JS.Throw JS.SyntaxError /\
  JS.JSON_parse "1 2" = JS.Throw JS.SyntaxError /\
  JS.JSON_parse "" = JS.Throw JS.SyntaxError /\
  JS.JSON_parse "undefined" = JS.Throw JS.SyntaxError /\
  JS.JSON_parse (JS.json "'😀'") = JS.Normal (JS.Str "😀") /\
  JS.JSON_parse (JS.json "'é'") = JS.Normal (JS.Str "é").
Proof. repeat split; vm_compute; reflexivity. Qed.

(** The examples of the specification for the baseline inline price. *)
Example computeInlineBasePrice_examples :
  MenuData.computeInlineBasePrice 21.5 "cassava_leaf" = 21%float /\
  MenuData.computeInlineBasePrice 16 "plain" = 15%float /\
  MenuData.computeInlineBasePrice 16.5 "plain" = 15%float /\
  MenuData.computeInlineBasePrice 3.5 "side_chicken_wing" = 3%float /\
  MenuData.computeInlineBasePrice 11 "chicken_wings" = 11%float.
Proof. repeat split; vm_compute; reflexivity. Qed.

(** Two entries of the baseline table. *)
Example baseline_examples :
  MenuData.items MenuData.BASELINE_PRICING !! "cassava_leaf"
    = Some {| MenuData.b_inlinePrice := 21; MenuData.b_onlinePrice := 21.5;
              MenuData.b_markup := 0.5; MenuData.b_label := None |} /\
  (MenuData.portions MenuData.BASELINE_PRICING !! "chicken_wings" ≫= (fun r => r !! "3_wings"))
    = Some {| MenuData.b_inlinePrice := 13; MenuData.b_onlinePrice := 15;
              MenuData.b_markup := 2; MenuData.b_label := Some "3 wings" |}.
Proof. split; vm_compute; reflexivity. Qed.

(** * Properties *)

Import MenuData Storefront.
Local Open Scope float_scope.

(** ** Facts about numbers *)

Module NumFacts.

(** A number that is not NaN is equal to itself. *)
Lemma eqb_refl x : PrimFloat.is_nan x = false -> (x =? x) = true.
Proof. unfold PrimFloat.is_nan. by intros ?%negb_false_iff. Qed.







(** A finite number is a zero or has a mantissa and an exponent. *)
Lemma is_finite_Prim2SF x :
  PrimFloat.is_finite x = true ->
  match Prim2SF x with
  | S754_nan | S754_infinity _ => False
  | _ => True
  end.
Proof.
  unfold PrimFloat.is_finite, PrimFloat.is_nan, PrimFloat.is_infinity.
  rewrite !FloatAxioms.eqb_spec, abs_spec.
  change (Prim2SF infinity) with (S754_infinity false).
  by destruct (Prim2SF x) as [s|[]| |s m e].
Qed.

Lemma SFmul_comm x y : SFmul prec emax x y = SFmul prec emax y x.
Proof.
  destruct x as [sx|sx| |sx mx ex], y as [sy|sy| |sy my ey]; cbn [SFmul];
    rewrite ?(xorb_comm sx sy); try reflexivity.
  by rewrite Pos.mul_comm, Z.add_comm.
Qed.

Lemma mul_comm x y : x * y = y * x.
Proof. apply Prim2SF_inj. rewrite !mul_spec. apply SFmul_comm. Qed.

Lemma binary_round_aux_opp s m e l :
  binary_round_aux prec emax (negb s) m e l
  = SFopp (binary_round_aux prec emax s m e l).
Proof.
  unfold binary_round_aux.
  destruct (shr_fexp prec emax m e l) as [mrs' e'].
  destruct (shr_fexp prec emax _ e' loc_Exact) as [mrs'' e''].
  destruct (shr_m mrs''); [reflexivity| |reflexivity].
  by destruct (e'' <=? emax - prec)%Z.
Qed.

Lemma SFmul_opp_l x y : SFmul prec emax (SFopp x) y = SFopp (SFmul prec emax x y).
Proof.
  destruct x as [sx|sx| |sx mx ex], y as [sy|sy| |sy my ey]; cbn [SFmul SFopp];
    rewrite <- ?negb_xorb_l; try reflexivity.
  apply binary_round_aux_opp.
Qed.

Lemma SFdiv_opp_l x y : SFdiv prec emax (SFopp x) y = SFopp (SFdiv prec emax x y).
Proof.
  destruct x as [sx|sx| |sx mx ex], y as [sy|sy| |sy my ey]; cbn [SFdiv SFopp];
    rewrite <- ?negb_xorb_l; try reflexivity.
  destruct (SFdiv_core_binary prec emax (Z.pos mx) ex (Z.pos my) ey) as [[mz ez] lz].
  apply binary_round_aux_opp.
Qed.

Lemma opp_mul_l x y : (- x) * y = - (x * y).
Proof. apply Prim2SF_inj. rewrite mul_spec, !opp_spec, mul_spec. apply SFmul_opp_l. Qed.

Lemma opp_div_l x y : (- x) / y = - (x / y).
Proof. apply Prim2SF_inj. rewrite div_spec, !opp_spec, div_spec. apply SFdiv_opp_l. Qed.

Lemma opp_involutive x : - - x = x.
Proof.
  apply Prim2SF_inj. rewrite !opp_spec.
  destruct (Prim2SF x); cbn [SFopp]; by rewrite ?negb_involutive.
Qed.

Lemma binary_normalize_opp m e :
  m <> 0%Z ->
  binary_normalize prec emax (- m) e false
  = SFopp (binary_normalize prec emax m e false).
Proof.
  destruct m as [|p|p]; [done| |]; intros _.
  - change (- Z.pos p)%Z with (Z.neg p). cbn [binary_normalize]. unfold binary_round.
    destruct (shl_align p e _) as [mz ez].
    change true with (negb false). apply binary_round_aux_opp.
  - change (- Z.neg p)%Z with (Z.pos p). cbn [binary_normalize]. unfold binary_round.
    destruct (shl_align p e _) as [mz ez].
    change true with (negb false). rewrite binary_round_aux_opp.
    by destruct (binary_round_aux _ _ false _ _ _) as [[]|[]| |[] ? ?].
Qed.

(** [x - y] and [y - x] are opposite numbers, or both are [0]. *)
Lemma SFsub_antisym x y :
  SFsub prec emax x y = SFopp (SFsub prec emax y x) \/
  (SFsub prec emax x y = S754_zero false /\ SFsub prec emax y x = S754_zero false).
Proof.
  destruct x as [[]|[]| |sx mx ex], y as [[]|[]| |sy my ey]; cbn [SFsub SFopp negb];
    rewrite ?negb_involutive; try (by left); try (by right).
  rewrite (Z.min_comm ey ex).
  set (X := cond_Zopp sx _). set (Y := cond_Zopp sy _).
  destruct (decide (X - Y = 0)%Z) as [Hz|Hnz].
  - right. replace (Y - X)%Z with 0%Z by lia. by rewrite Hz.
  - left. replace (X - Y)%Z with (- (Y - X))%Z by lia.
    apply binary_normalize_opp. lia.
Qed.

Lemma sub_antisym x y : x - y = - (y - x) \/ (x - y = 0 /\ y - x = 0).
Proof.
  destruct (SFsub_antisym (Prim2SF x) (Prim2SF y)) as [H|[H1 H2]].
  - left. apply Prim2SF_inj. by rewrite opp_spec, !sub_spec.
  - right. split; apply Prim2SF_inj; by rewrite sub_spec.
Qed.

(** A finite number less itself is [0]. *)
Lemma sub_diag x : PrimFloat.is_finite x = true -> x - x = 0.
Proof.
  intros Hfin%is_finite_Prim2SF. apply Prim2SF_inj. rewrite sub_spec.
  change (Prim2SF 0) with (S754_zero false).
  destruct (Prim2SF x) as [[]| | |s m e]; try done.
  unfold SF64sub. cbn [SFsub]. by rewrite Z.sub_diag.
Qed.

(** A finite number times [0] is a zero. *)
Lemma mul_zero_r x :
  PrimFloat.is_finite x = true -> exists s, Prim2SF (x * 0) = S754_zero s.
Proof.
  intros Hfin%is_finite_Prim2SF. rewrite mul_spec.
  change (Prim2SF 0) with (S754_zero false).
  destruct (Prim2SF x) as [s| | |s m e]; try done; cbn; eauto.
Qed.

(** [0] plus a zero is [0]. *)
Lemma add_zero_l x s : Prim2SF x = S754_zero s -> 0 + x = 0.
Proof.
  intros Hx. apply Prim2SF_inj. rewrite add_spec, Hx. by destruct s.
Qed.

Local Open Scope Z_scope.

(** *** Magnitudes: results that do not overflow *)

Lemma digits2_pos_bounds p :
  2 ^ (Z.pos (digits2_pos p) - 1) <= Z.pos p < 2 ^ Z.pos (digits2_pos p).
Proof.
  induction p as [p IH|p IH|]; cbn [digits2_pos].
  - rewrite Pos2Z.inj_succ, (Pos2Z.inj_xI p).
    replace (Z.succ (Z.pos (digits2_pos p)) - 1) with (Z.succ (Z.pos (digits2_pos p) - 1)) by lia.
    rewrite !Z.pow_succ_r by lia. lia.
  - rewrite Pos2Z.inj_succ, (Pos2Z.inj_xO p).
    replace (Z.succ (Z.pos (digits2_pos p)) - 1) with (Z.succ (Z.pos (digits2_pos p) - 1)) by lia.
    rewrite !Z.pow_succ_r by lia. lia.
  - cbn. lia.
Qed.

Lemma Zdigits2_le a k : 0 <= a < 2 ^ k -> 0 <= k -> Zdigits2 a <= k.
Proof.
  intros [Ha Hk] Hk0. destruct a as [|p|p]; cbn [Zdigits2]; [lia| |lia].
  destruct (digits2_pos_bounds p) as [Hlo _].
  destruct (Z_le_gt_dec (Z.pos (digits2_pos p)) k) as [|Hgt]; [done|].
  pose proof (Z.pow_le_mono_r 2 k (Z.pos (digits2_pos p) - 1)). lia.
Qed.

Lemma Zdigits2_ub a : 0 <= a -> a < 2 ^ Zdigits2 a.
Proof.
  destruct a as [|p|p]; cbn [Zdigits2]; [cbn; lia| |lia].
  intros _. apply digits2_pos_bounds.
Qed.

Lemma Zdigits2_nonneg a : 0 <= Zdigits2 a.
Proof. destruct a; cbn [Zdigits2]; lia. Qed.

Lemma shr_1_bounds mrs M :
  0 <= shr_m mrs <= M -> 0 <= shr_m (shr_1 mrs) <= M.
Proof.
  destruct mrs as [m r s]. cbn [shr_m].
  destruct m as [|[p|p|]|[p|p|]]; cbn [shr_1 shr_m]; lia.
Qed.

Lemma iter_pos_shr_1_bounds n mrs M :
  0 <= shr_m mrs <= M -> 0 <= shr_m (SpecFloat.iter_pos shr_1 n mrs) <= M.
Proof.
  revert mrs. induction n as [n IH|n IH|]; intros mrs Hm; cbn [SpecFloat.iter_pos].
  - apply IH, IH, shr_1_bounds, Hm.
  - apply IH, IH, Hm.
  - apply shr_1_bounds, Hm.
Qed.

Lemma shr_m_of_loc m l : shr_m (shr_record_of_loc m l) = m.
Proof. by destruct l as [|[]]. Qed.

Lemma shr_fexp_bounds m e l :
  0 <= m ->
  0 <= shr_m (shr_fexp prec emax m e l).1 <= m /\
  (shr_fexp prec emax m e l).2 <= Z.max e (Z.max (Zdigits2 m + e - 53) (-1074)).
Proof.
  intros Hm. unfold shr_fexp, shr, fexp, SpecFloat.emin.
  change prec with 53. change emax with 1024. change (3 - 1024 - 53) with (-1074).
  destruct (Z.max (Zdigits2 m + e - 53) (-1074) - e) as [|n|n] eqn:Hn; cbn [fst snd].
  - rewrite shr_m_of_loc. lia.
  - split; [|lia]. apply iter_pos_shr_1_bounds. rewrite shr_m_of_loc. lia.
  - rewrite shr_m_of_loc. lia.
Qed.

Lemma round_nearest_even_bounds m l :
  0 <= m -> 0 <= round_nearest_even m l <= m + 1.
Proof.
  intros Hm. destruct l as [|[]]; cbn [round_nearest_even]; try lia.
  destruct (Z.even m); lia.
Qed.

(** The outcome of a rounding: no NaN, no infinity, an exponent of at
    most [B]. *)
Definition within (B : Z) (x : spec_float) : Prop :=
  match x with
  | S754_zero _ => True
  | S754_finite _ _ e => e <= B
  | S754_nan | S754_infinity _ => False
  end.

Lemma within_mono B B' x : B <= B' -> within B x -> within B' x.
Proof. destruct x; cbn [within]; lia. Qed.

Lemma binary_round_aux_within s m e l D :
  0 <= m -> Zdigits2 m <= D -> Z.max (e + 2 * D) D <= 971 ->
  within (Z.max (e + 2 * D) D) (binary_round_aux prec emax s m e l).
Proof.
  intros Hm HD HB. unfold binary_round_aux.
  pose proof (shr_fexp_bounds m e l Hm) as [Hm1 He1].
  destruct (shr_fexp prec emax m e l) as [mrs' e']. cbn [fst snd] in Hm1, He1.
  pose proof (round_nearest_even_bounds (shr_m mrs') (loc_of_shr_record mrs')
                (proj1 Hm1)) as Hr.
  set (m2 := round_nearest_even (shr_m mrs') (loc_of_shr_record mrs')) in *.
  pose proof (shr_fexp_bounds m2 e' loc_Exact (proj1 Hr)) as [Hm2 He2].
  destruct (shr_fexp prec emax m2 e' loc_Exact) as [mrs'' e'']. cbn [fst snd] in Hm2, He2.
  assert (Hd2 : Zdigits2 m2 <= D + 1).
  { pose proof (Zdigits2_nonneg m). apply Zdigits2_le; [|lia].
    pose proof (Zdigits2_ub m Hm).
    pose proof (Z.pow_le_mono_r 2 (Zdigits2 m) D).
    rewrite Z.add_1_r, Z.pow_succ_r by lia. lia. }
  pose proof (Zdigits2_nonneg m) as Hd0.
  assert (He : e'' <= Z.max (e + 2 * D) D) by lia.
  destruct (shr_m mrs'') as [|p|p] eqn:Hp; cbn [within]; [done| |lia].
  change (emax - prec) with 971.
  destruct (Z.leb_spec e'' 971); cbn [within]; lia.
Qed.

Lemma valid_digits s m e :
  valid_binary (S754_finite s m e) = true -> Z.pos (digits2_pos m) <= 53.
Proof.
  cbn [SpecFloat.valid_binary]. unfold bounded, canonical_mantissa, fexp, SpecFloat.emin.
  change prec with 53. change emax with 1024.
  intros [Hc _]%andb_true_iff. apply Z.eqb_eq in Hc. lia.
Qed.

Lemma valid_mantissa s m e :
  valid_binary (S754_finite s m e) = true -> Z.pos m < 2 ^ 53.
Proof.
  intros Hd%valid_digits. destruct (digits2_pos_bounds m) as [_ Hub].
  pose proof (Z.pow_le_mono_r 2 (Z.pos (digits2_pos m)) 53). lia.
Qed.

(** A product of two numbers of small exponents does not overflow. *)
Lemma SFmul_within x y Bx By :
  valid_binary x = true -> valid_binary y = true ->
  within Bx x -> within By y -> Bx + By <= 759 ->
  within (Z.max (Bx + By + 212) 106) (SFmul prec emax x y).
Proof.
  intros Vx Vy Wx Wy HB.
  destruct x as [sx|sx| |sx mx ex], y as [sy|sy| |sy my ey]; cbn [within] in Wx, Wy;
    try done.
  cbn [SFmul].
  apply (within_mono (Z.max (ex + ey + 2 * 106) 106)); [lia|].
  apply binary_round_aux_within; [lia| |lia].
  apply Zdigits2_le; [|lia]. rewrite Pos2Z.inj_mul.
  pose proof (valid_mantissa _ _ _ Vx). pose proof (valid_mantissa _ _ _ Vy).
  change (2 ^ 106) with (2 ^ 53 * 2 ^ 53). nia.
Qed.

(** A quotient by a number of exponent [ey] does not overflow when the
    dividend's exponent is small. *)
Lemma SFdiv_within x sy my ey Bx :
  valid_binary x = true -> valid_binary (S754_finite sy my ey) = true ->
  within Bx x -> Bx - ey <= 655 ->
  within (Z.max (Bx - ey + 316) 158) (SFdiv prec emax x (S754_finite sy my ey)).
Proof.
  intros Vx Vy Wx HB.
  destruct x as [sx|sx| |sx mx ex]; cbn [within] in Wx; try done.
  cbn [SFdiv]. unfold SFdiv_core_binary.
  pose proof (valid_digits _ _ _ Vx) as Hdx. pose proof (valid_digits _ _ _ Vy) as Hdy.
  pose proof (valid_mantissa _ _ _ Vx) as Hmx.
  cbn [Zdigits2].
  set (d1 := Z.pos (digits2_pos mx)) in *. set (d2 := Z.pos (digits2_pos my)) in *.
  set (e' := Z.min (fexp prec emax (d1 + ex - (d2 + ey))) (ex - ey)).
  assert (He' : e' <= ex - ey) by (subst e'; lia).
  assert (Hs : 0 <= ex - ey - e' <= 105).
  { subst e'. unfold fexp, SpecFloat.emin. change prec with 53. change emax with 1024.
    subst d1 d2. lia. }
  set (m' := match ex - ey - e' with
             | Z.pos _ => Z.shiftl (Z.pos mx) (ex - ey - e')
             | 0 => Z.pos mx
             | Z.neg _ => 0
             end).
  assert (Hm' : 0 <= m' < 2 ^ 158).
  { subst m'. destruct (ex - ey - e') as [|n|n] eqn:Hn; [lia| |lia].
    rewrite Z.shiftl_mul_pow2 by lia.
    pose proof (Z.pow_le_mono_r 2 (Z.pos n) 105).
    change (2 ^ 158) with (2 ^ 53 * 2 ^ 105).
    assert (0 < 2 ^ Z.pos n) by (apply Z.pow_pos_nonneg; lia). nia. }
  pose proof (Z_div_mod m' (Z.pos my) eq_refl) as Hdiv.
  destruct (Z.div_eucl m' (Z.pos my)) as [q r].
  assert (Hq : 0 <= q <= m') by nia.
  apply (within_mono (Z.max (e' + 2 * 158) 158)); [lia|].
  apply binary_round_aux_within; [lia| |lia].
  apply Zdigits2_le; lia.
Qed.

(** A number whose absolute value is at most [c] has at most the
    exponent of [c]. *)
Lemma leb_abs_within x c mc ec :
  Prim2SF c = S754_finite false mc ec ->
  (PrimFloat.abs x <=? c)%float = true -> within ec (Prim2SF x).
Proof.
  intros Hc. rewrite leb_spec, abs_spec, Hc. unfold SFleb.
  destruct (Prim2SF x) as [s|[]| |s m e]; cbn [SFabs SFcompare within]; try done.
  destruct (Z.compare_spec e ec); [lia|lia|done].
Qed.

Lemma SFeqb_refl_finite s m e :
  SFeqb (S754_finite s m e) (S754_finite s m e) = true.
Proof.
  unfold SFeqb. cbn [SFcompare]. rewrite Z.compare_refl.
  change (Pos.compare_cont Eq m m) with (m ?= m)%positive. rewrite Pos.compare_refl.
  by destruct s.
Qed.

Lemma within_is_finite x B : within B (Prim2SF x) -> PrimFloat.is_finite x = true.
Proof.
  unfold PrimFloat.is_finite, PrimFloat.is_nan, PrimFloat.is_infinity.
  rewrite !FloatAxioms.eqb_spec, abs_spec.
  change (Prim2SF infinity) with (S754_infinity false).
  destruct (Prim2SF x) as [s|s| |s m e]; cbn [within]; try done.
  intros _. by rewrite SFeqb_refl_finite.
Qed.

Lemma mul_within x y Bx By :
  within Bx (Prim2SF x) -> within By (Prim2SF y) -> Bx + By <= 759 ->
  within (Z.max (Bx + By + 212) 106) (Prim2SF (x * y)%float).
Proof. rewrite mul_spec. apply SFmul_within; apply Prim2SF_valid. Qed.

Lemma div_within x y sy my ey Bx :
  Prim2SF y = S754_finite sy my ey ->
  within Bx (Prim2SF x) -> Bx - ey <= 655 ->
  within (Z.max (Bx - ey + 316) 158) (Prim2SF (x / y)%float).
Proof.
  intros Hy. rewrite div_spec, Hy.
  apply SFdiv_within; [apply Prim2SF_valid | rewrite <- Hy; apply Prim2SF_valid].
Qed.

End NumFacts.

(** ** Scenarios *)

Module Scenario.
Import MenuData Storefront.
Local Open Scope float_scope.

(** The page as it loads: an empty cart, ordering open, no overrides,
    the order type radio on [checked]. *)
Definition start (checked : string) : State :=
  {| cart := []; checkedOrderType := Some checked;
     deliveryFee := 0; currentTipPercent := Percent 0; currentTipAmount := 0;
     orderingClosed := false; inlinePreviewMode := false;
     priceOverrides := empty_overrides; hasTipSection := true |}.

Definition chicken_wings : MenuItem :=
  {| MenuData.id := "chicken_wings"; MenuData.name := "Chicken Wings"; MenuData.price := 11.0 |}.

Definition two_wings : PortionOption :=
  {| key := "2_wings"; label := "2 wings"; onlinePrice := 11; inlinePrice := 10 |}.

Definition three_wings : PortionOption :=
  {| key := "3_wings"; label := "3 wings"; onlinePrice := 15; inlinePrice := 13 |}.

(** Two orders of three wings, for pickup. *)
Definition pickup_two_orders : State :=
  addToCart chicken_wings (Some three_wings)
    (addToCart chicken_wings (Some three_wings) (start "pickup")).

(** One order of two wings and one of three: two lines of one item. *)
Definition two_portions : State :=
  addToCart chicken_wings (Some three_wings)
    (addToCart chicken_wings (Some two_wings) (start "pickup")).

(** A delivery order with a delivery fee of 5.00 and a tip of 2.00, and
    the same order after the radio button is moved to pickup (the
    globals still hold the fee and the tip). *)
Definition with_fee_and_tip (checked : string) : State :=
  {| cart := cart pickup_two_orders; checkedOrderType := Some checked;
     deliveryFee := 5; currentTipPercent := Custom; currentTipAmount := 2;
     orderingClosed := false; inlinePreviewMode := false;
     priceOverrides := empty_overrides; hasTipSection := true |}.

End Scenario.

(** ** Totals *)

Lemma computeTotals_fees st : fees (computeTotals st).1 = 0.
Proof. reflexivity. Qed.

(** C1. A pickup order of two portions at 15.00 has subtotal 30, and
    [computeTotals] returns fees 0 for it, not the 3.00 that ten percent
    of the subtotal would be: the fees are 0 on every channel. *)
Theorem pickup_fees_are_zero :
  let t := (computeTotals Scenario.pickup_two_orders).1 in
  getCurrentOrderType Scenario.pickup_two_orders = "pickup" /\
  (price <$> cart Scenario.pickup_two_orders) = [15] /\
  (quantity <$> cart Scenario.pickup_two_orders) = [2] /\
  subtotal t = 30 /\ fees t = 0 /\ grand t = 30 /\
  Num.strict_eq (fees t) 3 = false.
Proof. vm_compute. repeat split. Qed.

(** C5. The grand total of a breakdown is the sum of its subtotal, fees,
    delivery fee and tip, added in that order. *)
Theorem grand_is_sum_of_components st :
  let t := (computeTotals st).1 in
  grand t = subtotal t + fees t + t_deliveryFee t + tip t.
Proof. reflexivity. Qed.




(** ** Baseline inline price *)

(** The derivation rule in the words of the specification. *)
Module InlineRule.

(** The cents of a price, after rounding to whole cents. *)
Definition cents_component (p : float) : float :=
  Num.rem (Num.round (p * 100)) 100.

(** The price, in whole cents, less 50 cents. *)
Definition without_fifty_cents (p : float) : float :=
  (Num.round (p * 100) - 50) / 100.

(** Equal to 16.00 within the epsilon. *)
Definition is_sixteen (p : float) : bool := PrimFloat.abs (p - 16) <? 0.001.

Definition inline_price_rule (onlinePrice : float) (itemId : string) : float :=
  if bool_decide (itemId ∈ single_piece_sides) then 3
  else
    let adjusted :=
      if Num.strict_eq (cents_component onlinePrice) 50
      then without_fifty_cents onlinePrice
      else onlinePrice in
    if is_sixteen adjusted then 15 else adjusted.

End InlineRule.

Lemma includes_elem_of l x : includes l x = bool_decide (x ∈ l).
Proof.
  unfold includes. induction l as [|y l IH]; cbn [existsb].
  - symmetry. apply bool_decide_eq_false_2, not_elem_of_nil.
  - rewrite IH. destruct (String.eqb_spec x y) as [->|Hne]; cbn [orb].
    + symmetry. apply bool_decide_eq_true_2. left.
    + apply bool_decide_ext. rewrite elem_of_cons. tauto.
Qed.

(** C6. [computeInlineBasePrice] follows the derivation rule: 3.00 for a
    single-piece side whatever its price; otherwise the price less its 50
    cents when its cents are exactly 50, then 15.00 when that is 16.00
    within the epsilon, and otherwise unchanged. *)
Theorem computeInlineBasePrice_follows_rule :
  (forall basePrice itemId,
     computeInlineBasePrice basePrice itemId
     = InlineRule.inline_price_rule basePrice itemId) /\
  (forall basePrice itemId,
     itemId ∈ single_piece_sides -> computeInlineBasePrice basePrice itemId = 3) /\
  computeInlineBasePrice 21.50 "cassava_leaf" = 21.00 /\
  computeInlineBasePrice 16.00 "plain_item" = 15.00 /\
  computeInlineBasePrice 16.50 "plain_item" = 15.00 /\
  computeInlineBasePrice 11.00 "chicken_wings" = 11.00.
Proof.
  split; [|split].
  - intros p i. unfold computeInlineBasePrice, InlineRule.inline_price_rule.
    rewrite includes_elem_of. reflexivity.
  - intros p i Hin. unfold computeInlineBasePrice.
    rewrite includes_elem_of, bool_decide_eq_true_2; done.
  - repeat split; vm_compute; reflexivity.
Qed.

Lemma computeInlineBasePrice_witness :
  computeInlineBasePrice 3.50 "side_chicken_wing" = 3.00.
Proof.
  apply (proj1 (proj2 computeInlineBasePrice_follows_rule)).
  apply (bool_decide_unpack _). vm_compute. exact I.
Defined.

(** ** Cart lines *)

(** What redrawing the cart leaves alone. *)
Lemma updateTipSection_frame st :
  cart (updateTipSection st) = cart st /\
  orderingClosed (updateTipSection st) = orderingClosed st /\
  priceOverrides (updateTipSection st) = priceOverrides st /\
  checkedOrderType (updateTipSection st) = checkedOrderType st.
Proof.
  unfold updateTipSection.
  destruct (negb (hasTipSection st)); [done|].
  destruct (_ || _); done.
Qed.

Lemma computeTotals_frame st :
  cart (computeTotals st).2 = cart st /\
  orderingClosed (computeTotals st).2 = orderingClosed st /\
  priceOverrides (computeTotals st).2 = priceOverrides st /\
  checkedOrderType (computeTotals st).2 = checkedOrderType st.
Proof. unfold computeTotals. cbn [snd]. destruct (negb _); done. Qed.

Lemma updateCartTotals_frame st :
  cart (updateCartTotals st) = cart st /\
  orderingClosed (updateCartTotals st) = orderingClosed st /\
  priceOverrides (updateCartTotals st) = priceOverrides st /\
  checkedOrderType (updateCartTotals st) = checkedOrderType st.
Proof.
  unfold updateCartTotals.
  destruct (updateTipSection_frame (computeTotals st).2) as (-> & -> & -> & ->).
  apply computeTotals_frame.
Qed.

Lemma renderCart_frame st :
  cart (renderCart st) = cart st /\
  orderingClosed (renderCart st) = orderingClosed st /\
  priceOverrides (renderCart st) = priceOverrides st /\
  checkedOrderType (renderCart st) = checkedOrderType st.
Proof.
  unfold renderCart.
  destruct (updateTipSection_frame (updateCartTotals st)) as (-> & -> & -> & ->).
  apply updateCartTotals_frame.
Qed.

Lemma given_idem k : given (given k) = given k.
Proof. by destruct k as [[|]|]. Qed.

Lemma given_key_inj k1 k2 : k1 <> k2 -> given (Some k1) <> given (Some k2).
Proof. destruct k1, k2; simpl; congruence. Qed.

(** Adding an item for which the cart has no line appends a line of
    quantity 1; adding one for which it has a line adds 1 to the quantity
    of the first such line. *)
Lemma refresh_frame st :
  cart (updateCartTotals (renderCart st)) = cart st /\
  orderingClosed (updateCartTotals (renderCart st)) = orderingClosed st.
Proof.
  destruct (updateCartTotals_frame (renderCart st)) as (-> & -> & _).
  destruct (renderCart_frame st) as (-> & -> & _). done.
Qed.

Lemma addToCart_new item po st :
  orderingClosed st = false ->
  list_find (same_line (MenuData.id item) (key <$> po)) (cart st) = None ->
  exists line,
    cart (addToCart item po st) = cart st ++ [line] /\
    quantity line = 1 /\ id line = MenuData.id item /\
    plateOptionKey line = given (key <$> po).
Proof.
  intros Hopen Hfind. unfold addToCart, ensureOrderingOpenOrWarn. rewrite Hopen, Hfind.
  cbn [negb].
  eexists. split; [rewrite (proj1 (refresh_frame _)); reflexivity|]. done.
Qed.

Lemma addToCart_existing item po st idx existing :
  orderingClosed st = false ->
  list_find (same_line (MenuData.id item) (key <$> po)) (cart st) = Some (idx, existing) ->
  exists line,
    cart (addToCart item po st) = <[ idx := line ]> (cart st) /\
    quantity line = quantity existing + 1 /\ id line = id existing /\
    plateOptionKey line = plateOptionKey existing.
Proof.
  intros Hopen Hfind. unfold addToCart, ensureOrderingOpenOrWarn. rewrite Hopen, Hfind.
  cbn [negb].
  eexists. split; [rewrite (proj1 (refresh_frame _)); reflexivity|]. done.
Qed.

Lemma addToCart_open item po st :
  orderingClosed st = false -> orderingClosed (addToCart item po st) = false.
Proof.
  intros Hopen. unfold addToCart, ensureOrderingOpenOrWarn. rewrite Hopen. cbn [negb].
  by rewrite (proj2 (refresh_frame _)).
Qed.

Lemma list_find_snoc_hit {A} (P : A -> Prop) `{!forall x, Decision (P x)} l x :
  list_find P l = None -> P x -> list_find P (l ++ [x]) = Some (length l, x).
Proof.
  intros Hnone HP. rewrite list_find_app_r by done. simpl.
  rewrite decide_True by done. done.
Qed.

Lemma list_find_snoc_miss {A} (P : A -> Prop) `{!forall x, Decision (P x)} l x :
  list_find P l = None -> ~ P x -> list_find P (l ++ [x]) = None.
Proof.
  intros Hnone HP. apply list_find_app_None. split; [done|].
  simpl. rewrite decide_False by done. done.
Qed.

Lemma insert_snoc {A} (l : list A) x y : <[ length l := y ]> (l ++ [x]) = l ++ [y].
Proof.
  replace (length l) with (length l + 0)%nat by lia.
  by rewrite insert_app_r.
Qed.

(** C7. With ordering open, adding an item twice with one portion key
    (or twice with none), to a cart that has no line for it, makes a
    single line of quantity 2; adding it with two different portion keys
    makes two lines. *)
Theorem cart_line_identity st item (po : option PortionOption) (po1 po2 : PortionOption) :
  orderingClosed st = false ->
  list_find (same_line (MenuData.id item) (key <$> po)) (cart st) = None ->
  list_find (same_line (MenuData.id item) (Some (key po1))) (cart st) = None ->
  list_find (same_line (MenuData.id item) (Some (key po2))) (cart st) = None ->
  key po1 <> key po2 ->
  (exists line,
     cart (addToCart item po (addToCart item po st)) = cart st ++ [line] /\
     quantity line = 2 /\ id line = MenuData.id item /\
     plateOptionKey line = given (key <$> po)) /\
  (exists line1 line2,
     cart (addToCart item (Some po2) (addToCart item (Some po1) st))
       = cart st ++ [line1; line2] /\
     quantity line1 = 1 /\ quantity line2 = 1 /\
     id line1 = MenuData.id item /\ id line2 = MenuData.id item /\
     plateOptionKey line1 = given (Some (key po1)) /\
     plateOptionKey line2 = given (Some (key po2)) /\
     plateOptionKey line1 <> plateOptionKey line2).
Proof.
  intros Hopen Hpo Hpo1 Hpo2 Hne. split.
  - destruct (addToCart_new item po st Hopen Hpo) as (l1 & Hc1 & Hq1 & Hi1 & Hk1).
    assert (Hhit : list_find (same_line (MenuData.id item) (key <$> po))
                     (cart (addToCart item po st)) = Some (length (cart st), l1)).
    { rewrite Hc1. apply list_find_snoc_hit; [done|].
      split; [done|]. by rewrite Hk1, given_idem. }
    destruct (addToCart_existing item po _ _ _ (addToCart_open item po st Hopen) Hhit)
      as (l2 & Hc2 & Hq2 & Hi2 & Hk2).
    exists l2. rewrite Hc2, Hc1, insert_snoc, Hq2, Hq1, Hi2, Hk2. done.
  - destruct (addToCart_new item (Some po1) st Hopen Hpo1) as (l1 & Hc1 & Hq1 & Hi1 & Hk1).
    assert (Hmiss : list_find (same_line (MenuData.id item) (key <$> Some po2))
                      (cart (addToCart item (Some po1) st)) = None).
    { rewrite Hc1. apply list_find_snoc_miss; [done|].
      intros [_ Hk]. rewrite Hk1, given_idem in Hk.
      by apply (given_key_inj _ _ Hne). }
    destruct (addToCart_new item (Some po2) _ (addToCart_open item _ st Hopen) Hmiss)
      as (l2 & Hc2 & Hq2 & Hi2 & Hk2).
    exists l1, l2. rewrite Hc2, Hc1, <- app_assoc. simpl.
    split_and!; try done.
    rewrite Hk1, Hk2. by apply given_key_inj.
Qed.

Lemma cart_line_identity_witness :
  (exists line,
     cart Scenario.pickup_two_orders = [line] /\
     quantity line = 2 /\ id line = "chicken_wings" /\
     plateOptionKey line = Some "3_wings") /\
  (exists line1 line2,
     cart Scenario.two_portions = [line1; line2] /\
     quantity line1 = 1 /\ quantity line2 = 1 /\
     id line1 = "chicken_wings" /\ id line2 = "chicken_wings" /\
     plateOptionKey line1 = Some "2_wings" /\
     plateOptionKey line2 = Some "3_wings" /\
     plateOptionKey line1 <> plateOptionKey line2).
Proof.
  apply (cart_line_identity (Scenario.start "pickup") Scenario.chicken_wings
           (Some Scenario.three_wings) Scenario.two_wings Scenario.three_wings);
    [reflexivity | reflexivity | reflexivity | reflexivity | discriminate].
Defined.

(** C8. In a cart with a line of two wings and a line of three wings,
    both of the item [chicken_wings], the [+] button of the second row
    leaves the quantity of that row at 1 and raises the first row's to 2;
    its [-] button removes the first row. [updateQuantity] looks the line
    up by item id alone. *)
Theorem quantity_button_changes_other_line :
  (plateOptionKey <$> cart Scenario.two_portions) = [Some "2_wings"; Some "3_wings"] /\
  (id <$> cart Scenario.two_portions) = ["chicken_wings"; "chicken_wings"] /\
  (quantity <$> cart Scenario.two_portions) = [1; 1] /\
  (quantity <$> cart (clickIncrease 1 Scenario.two_portions)) = [2; 1] /\
  (plateOptionKey <$> cart (clickDecrease 1 Scenario.two_portions)) = [Some "3_wings"] /\
  (quantity <$> cart (clickDecrease 1 Scenario.two_portions)) = [1].
Proof. vm_compute. repeat split. Qed.

(** ** The override store *)

Module Stored.

(** A store that holds [text] (single quotes for double ones) under the
    overrides key. *)
Definition holding (text : string) : Storage :=
  Available {[ PRICE_OVERRIDE_STORAGE_KEY := JS.json text ]}.



Definition items_is_5 : Storage := holding "{'items':5}".

Definition well_formed : Storage :=
  holding "{'items':{'cassava_leaf':12.5},'portions':{'beef_ribs':{'1_rib':14}}}".

End Stored.

(** C9, as stated, fails: for the stored text [{"items":5}], a JSON text
    that is not an overrides document, [loadPriceOverrides] returns the
    number 5 as [items], not the empty overrides. *)
Lemma load_keeps_truthy_items :
  loadPriceOverrides Stored.items_is_5
    = {| o_items := JS.Number 5; o_portions := JS.empty_obj |} /\
  loadPriceOverrides Stored.items_is_5 <> empty_overrides.
Proof. split; [vm_compute; reflexivity | vm_compute; discriminate]. Qed.

Definition nullish (v : JS.value) : bool :=
  match v with
  | JS.Undefined | JS.Null => true
  | _ => false
  end.

Lemma loadPriceOverrides_cases (localStorage : Storage) :
  loadPriceOverrides localStorage =
  match getItem localStorage PRICE_OVERRIDE_STORAGE_KEY with
  | JS.Throw _ | JS.Normal None => empty_overrides
  | JS.Normal (Some raw) =>
      match JS.JSON_parse raw with
      | JS.Throw _ => empty_overrides
      | JS.Normal parsed =>
          if nullish parsed then empty_overrides
          else {| o_items := JS.or_else (JS.get parsed "items") JS.empty_obj;
                  o_portions := JS.or_else (JS.get parsed "portions") JS.empty_obj |}
      end
  end.
Proof.
  unfold loadPriceOverrides.
  destruct (getItem localStorage PRICE_OVERRIDE_STORAGE_KEY) as [[[|c raw]|]|e];
    cbn [JS.bind JS.try_catch]; try reflexivity.
  destruct (JS.JSON_parse (String c raw)) as [parsed|e];
    cbn [JS.bind JS.try_catch]; try reflexivity.
  destruct parsed; reflexivity.
Qed.

(** C9, amended. [loadPriceOverrides] returns a value for every state of
    the store (it never throws). That value is the empty overrides when
    the store cannot be read, has nothing under the key, or has a text
    that is not JSON (the empty text is not) or is the JSON [null]. For
    any other JSON value it is that value's [items] and [portions], each
    replaced by an empty object when falsy; so the maps of a well-formed
    document are returned as they are. *)
Theorem loadPriceOverrides_outcomes (localStorage : Storage) :
  let stored := getItem localStorage PRICE_OVERRIDE_STORAGE_KEY in
  ((exists e, stored = JS.Throw e) \/ stored = JS.Normal None \/
   (exists raw, stored = JS.Normal (Some raw) /\
      ((exists e, JS.JSON_parse raw = JS.Throw e) \/
       JS.JSON_parse raw = JS.Normal JS.Null)) ->
   loadPriceOverrides localStorage = empty_overrides) /\
  (forall raw parsed,
     stored = JS.Normal (Some raw) ->
     JS.JSON_parse raw = JS.Normal parsed ->
     nullish parsed = false ->
     loadPriceOverrides localStorage
     = {| o_items := JS.or_else (JS.get parsed "items") JS.empty_obj;
          o_portions := JS.or_else (JS.get parsed "portions") JS.empty_obj |}) /\
  (forall raw doc its pos,
     stored = JS.Normal (Some raw) ->
     JS.JSON_parse raw = JS.Normal (JS.Obj doc) ->
     doc !! "items" = Some (JS.Obj its) ->
     doc !! "portions" = Some (JS.Obj pos) ->
     loadPriceOverrides localStorage
     = {| o_items := JS.Obj its; o_portions := JS.Obj pos |}).
Proof.
  intros stored. subst stored. rewrite loadPriceOverrides_cases. split_and!.
  - intros [[e ->]|[->|(raw & -> & [[e ->]| ->])]]; reflexivity.
  - intros raw parsed -> -> ->. reflexivity.
  - intros raw doc its pos -> -> Hits Hpos. cbn [nullish JS.get].
    rewrite Hits, Hpos. reflexivity.
Qed.

Lemma loadPriceOverrides_witness :
  loadPriceOverrides Stored.well_formed
  = {| o_items := JS.Obj {[ "cassava_leaf" := JS.Number 12.5 ]};
       o_portions := JS.Obj {[ "beef_ribs" := JS.Obj {[ "1_rib" := JS.Number 14 ]} ]} |}.
Proof.
  eapply (proj2 (proj2 (loadPriceOverrides_outcomes Stored.well_formed)));
    [reflexivity | vm_compute; reflexivity | vm_compute; reflexivity
    | vm_compute; reflexivity].
Defined.

Example loadPriceOverrides_fallbacks :
  loadPriceOverrides Unavailable = empty_overrides /\
  loadPriceOverrides (Available ∅) = empty_overrides /\
  loadPriceOverrides (Stored.holding "") = empty_overrides /\
  loadPriceOverrides (Stored.holding "{'items':") = empty_overrides /\
  loadPriceOverrides (Stored.holding "null") = empty_overrides /\
  loadPriceOverrides (Stored.holding "[1,2]") = empty_overrides /\
  loadPriceOverrides (Stored.holding "{'prices':{}}") = empty_overrides /\
  loadPriceOverrides (Stored.holding "{'items':0,'portions':null}") = empty_overrides.
Proof. repeat split; vm_compute; reflexivity. Qed.

(** ** The effective price resolver *)

(** The baseline entry and the override the resolver looks up for an item
    (no portion key, or an empty one) or for a portion of an item. *)
Module Resolver.

Definition baseline_entry (itemId : string) (portionKey : option string)
  : option Baseline :=
  match given portionKey with
  | Some k => portions BASELINE_PRICING !! itemId ≫= (fun row => row !! k)
  | None => items BASELINE_PRICING !! itemId
  end.

Definition override_value (overrides : PriceOverrides) (itemId : string)
    (portionKey : option string) : JS.value :=
  match given portionKey with
  | Some k => JS.get (JS.get (o_portions overrides) itemId) k
  | None => JS.get (o_items overrides) itemId
  end.






End Resolver.

Lemma getEffectivePrices_unfold itemId portionKey overrides :
  getEffectivePrices itemId portionKey overrides =
  base ← Resolver.baseline_entry itemId portionKey;
  let inline := default (b_inlinePrice base)
                  (readNumber (Resolver.override_value overrides itemId portionKey)) in
  Some {| inline := inline; online := inline + b_markup base; markup := b_markup base |}.
Proof.
  unfold getEffectivePrices, Resolver.baseline_entry, Resolver.override_value.
  destruct (given portionKey) as [k|].
  - destruct (portions BASELINE_PRICING !! itemId ≫= _) as [base|]; [|done].
    cbn [mbind option_bind]. by destruct (readNumber _).
  - destruct (items BASELINE_PRICING !! itemId) as [base|]; [|done].
    cbn [mbind option_bind]. by destruct (readNumber _).
Qed.







Example override_examples :
  getEffectivePrices "cassava_leaf" None (loadPriceOverrides Stored.well_formed)
    = Some {| inline := 12.5; online := 13; markup := 0.5 |} /\
  getEffectivePrices "beef_ribs" (Some "1_rib") (loadPriceOverrides Stored.well_formed)
    = Some {| inline := 14; online := 15; markup := 1 |} /\
  getEffectivePrices "beef_ribs" (Some "2_ribs") (loadPriceOverrides Stored.well_formed)
    = Some {| inline := 20; online := 21; markup := 1 |} /\
  getEffectivePrices "potato_greens" None (loadPriceOverrides Stored.well_formed)
    = Some {| inline := 21; online := 21.5; markup := 0.5 |} /\
  getEffectivePrices "unknown" None empty_overrides = None.
Proof. repeat split; vm_compute; reflexivity. Qed.










(** ** Distance *)

(** What the distance needs of the implementation's [Math] functions.
    The language fixes [Math.sin(0)], [0 ** 2] and [Math.atan2(0, 1)];
    that the sine is odd, the square even, and the cosine of a finite
    angle at most 1 in absolute value, holds of the implementations in
    use. *)
Class MathLaws (M : MathLib) : Prop := {
  sin_zero : Math_sin 0 = 0;
  sin_odd x : Math_sin (- x) = - Math_sin x;
  pow_zero : Math_pow 0 2 = 0;
  pow_even x : Math_pow (- x) 2 = Math_pow x 2;
  atan2_zero : Math_atan2 0 1 = 0;
  cos_range x :
    PrimFloat.is_finite x = true -> (PrimFloat.abs (Math_cos x) <=? 1) = true;
}.

Section DistanceFacts.
Context {M : MathLib} {laws : MathLaws M}.
Import NumFacts.

(** The haversine term of a difference of degrees. *)
Definition hav (d : float) : float := Math_pow (Math_sin (toRad d / 2)) 2.

Lemma computeDistanceMiles_hav lat1 lon1 lat2 lon2 :
  computeDistanceMiles lat1 lon1 lat2 lon2 =
  let a := hav (lat2 - lat1)
           + Math_cos (toRad lat1) * Math_cos (toRad lat2) * hav (lon2 - lon1) in
  6371 * (2 * Math_atan2 (PrimFloat.sqrt a) (PrimFloat.sqrt (1 - a))) * 0.621371.
Proof. reflexivity. Qed.

Lemma toRad_opp d : toRad (- d) = - toRad d.
Proof. unfold toRad. by rewrite opp_mul_l, opp_div_l. Qed.

Lemma hav_opp d : hav (- d) = hav d.
Proof. unfold hav. by rewrite toRad_opp, opp_div_l, sin_odd, pow_even. Qed.

Lemma hav_sub x y : hav (x - y) = hav (y - x).
Proof.
  destruct (sub_antisym x y) as [-> | [-> ->]]; [apply hav_opp | reflexivity].
Qed.

Lemma hav_zero : hav 0 = 0.
Proof.
  unfold hav. change (toRad 0 / 2) with 0. by rewrite sin_zero, pow_zero.
Qed.

Lemma distance_symmetric lat1 lon1 lat2 lon2 :
  computeDistanceMiles lat1 lon1 lat2 lon2 = computeDistanceMiles lat2 lon2 lat1 lon1.
Proof.
  rewrite !computeDistanceMiles_hav.
  by rewrite (hav_sub lat2 lat1), (hav_sub lon2 lon1),
             (mul_comm (Math_cos (toRad lat1))).
Qed.

(** A latitude or a longitude is a finite number. *)
Lemma degrees_finite d c mc ec :
  Prim2SF c = S754_finite false mc ec ->
  (PrimFloat.abs d <=? c) = true -> PrimFloat.is_finite d = true.
Proof. intros Hc Hd. exact (within_is_finite _ _ (leb_abs_within _ _ _ _ Hc Hd)). Qed.

(** The radians of a latitude are a finite number. *)
Lemma toRad_finite lat :
  (PrimFloat.abs lat <=? 90) = true -> PrimFloat.is_finite (toRad lat) = true.
Proof.
  intros Hlat. unfold toRad.
  assert (H90 : Prim2SF 90 = S754_finite false 6333186975989760 (-46)) by reflexivity.
  assert (Hpi : Prim2SF Math_PI = S754_finite false 7074237752028440 (-51)) by reflexivity.
  assert (H180 : Prim2SF 180 = S754_finite false 6333186975989760 (-45)) by reflexivity.
  pose proof (leb_abs_within lat 90 _ _ H90 Hlat) as Wlat.
  assert (Wpi : within (-51) (Prim2SF Math_PI)) by (rewrite Hpi; cbn [within]; lia).
  assert (Wmul : within 115 (Prim2SF (lat * Math_PI))).
  { apply (within_mono (Z.max (-46 + -51 + 212) 106)); [lia|].
    apply mul_within; [done..|lia]. }
  assert (Wdiv : within 476 (Prim2SF (lat * Math_PI / 180))).
  { apply (within_mono (Z.max (115 - -45 + 316) 158)); [lia|].
    eapply div_within; [exact H180|done|lia]. }
  exact (within_is_finite _ _ Wdiv).
Qed.

(** The product of the cosines of two finite angles is a finite
    number. *)
Lemma cos_product_finite x y :
  PrimFloat.is_finite x = true -> PrimFloat.is_finite y = true ->
  PrimFloat.is_finite (Math_cos x * Math_cos y) = true.
Proof.
  intros Hx Hy.
  assert (H1 : Prim2SF 1 = S754_finite false 4503599627370496 (-52)) by reflexivity.
  pose proof (leb_abs_within _ 1 _ _ H1 (cos_range x Hx)) as Wx.
  pose proof (leb_abs_within _ 1 _ _ H1 (cos_range y Hy)) as Wy.
  apply (within_is_finite _ (Z.max (-52 + -52 + 212) 106)).
  apply mul_within; [done..|lia].
Qed.

Lemma distance_zero lat lon :
  (PrimFloat.abs lat <=? 90) = true -> (PrimFloat.abs lon <=? 180) = true ->
  computeDistanceMiles lat lon lat lon = 0.
Proof.
  intros Hlat Hlon. rewrite computeDistanceMiles_hav.
  assert (H90 : Prim2SF 90 = S754_finite false 6333186975989760 (-46)) by reflexivity.
  assert (H180 : Prim2SF 180 = S754_finite false 6333186975989760 (-45)) by reflexivity.
  rewrite (sub_diag lat (degrees_finite _ _ _ _ H90 Hlat)),
          (sub_diag lon (degrees_finite _ _ _ _ H180 Hlon)), hav_zero.
  pose proof (toRad_finite lat Hlat) as Hrad.
  destruct (mul_zero_r _ (cos_product_finite _ _ Hrad Hrad)) as [s Hs].
  cbv zeta. rewrite (add_zero_l _ _ Hs).
  change (PrimFloat.sqrt 0) with 0. change (PrimFloat.sqrt (1 - 0)) with 1.
  by rewrite atan2_zero.
Qed.

End DistanceFacts.

(** C10. [computeDistanceMiles] returns the same number for two points
    taken in either order (so the two results are equal, unless they are
    NaN), and 0 for a point and itself, its latitude being within 90
    degrees and its longitude within 180. *)
Theorem distance_symmetric_and_zero {M : MathLib} (laws : MathLaws M) :
  (forall lat1 lon1 lat2 lon2,
     computeDistanceMiles lat1 lon1 lat2 lon2 = computeDistanceMiles lat2 lon2 lat1 lon1) /\
  (forall lat1 lon1 lat2 lon2,
     PrimFloat.is_nan (computeDistanceMiles lat1 lon1 lat2 lon2) = false ->
     Num.strict_eq (computeDistanceMiles lat1 lon1 lat2 lon2)
                   (computeDistanceMiles lat2 lon2 lat1 lon1) = true) /\
  (forall lat lon,
     (PrimFloat.abs lat <=? 90) = true -> (PrimFloat.abs lon <=? 180) = true ->
     computeDistanceMiles lat lon lat lon = 0).
Proof.
  split_and!.
  - apply distance_symmetric.
  - intros lat1 lon1 lat2 lon2 Hnan.
    rewrite (distance_symmetric lat2 lon2 lat1 lon1).
    by apply NumFacts.eqb_refl.
  - apply distance_zero.
Qed.

(** The laws hold of the small-angle approximations of the functions. *)
Module SmallAngle.
Import NumFacts.

Definition math : MathLib :=
  {| Math_sin := fun x => x;
     Math_cos := fun _ => 1;
     Math_atan2 := fun y x => y / x;
     Math_pow := fun x _ => x * x |}.

Lemma laws : MathLaws math.
Proof.
  split; cbn [Math_sin Math_cos Math_atan2 Math_pow math]; try reflexivity.
  intros x. by rewrite opp_mul_l, (mul_comm x (- x)), opp_mul_l, opp_involutive.
Qed.

End SmallAngle.

Lemma distance_witness :
  computeDistanceMiles (M := SmallAngle.math) 39.9448 (-75.2390) 39.9526 (-75.1652)
  = computeDistanceMiles (M := SmallAngle.math) 39.9526 (-75.1652) 39.9448 (-75.2390) /\
  computeDistanceMiles (M := SmallAngle.math) 39.9448 (-75.2390) 39.9448 (-75.2390) = 0.
Proof.
  destruct (distance_symmetric_and_zero SmallAngle.laws) as (Hsym & _ & Hzero).
  split; [apply Hsym | apply Hzero; reflexivity].
Defined.

(** * Further properties of the storefront *)

Import Page.

(** ** Ordering status *)

Lemma or_else_default_truthy v d : JS.truthy d = true -> JS.truthy (JS.or_else v d) = true.
Proof. intros Hd. unfold JS.or_else. by destruct (JS.truthy v) eqn:Hv. Qed.

(** X1. Ordering is read as closed only on evidence: [readOrderingStatus]
    never throws, and it reports [closed] exactly when the store can be
    read, holds a text under the key of the ordering status, the text is
    JSON, and the member [closed] of the parsed value is truthy. In every
    other case (no storage, no entry, text that is not JSON, [null], a
    value without that member) ordering is open. The message it returns
    is never a falsy value. *)
Theorem readOrderingStatus_closed_iff ls :
  (closed (readOrderingStatus ls) = true <->
   exists entries raw parsed,
     ls = Available entries /\
     entries !! ORDERING_STATUS_STORAGE_KEY = Some raw /\
     JS.JSON_parse raw = JS.Normal parsed /\
     JS.truthy (JS.get parsed "closed") = true) /\
  JS.truthy (message (readOrderingStatus ls)) = true.
Proof.
  unfold readOrderingStatus.
  destruct ls as [|entries]; cbn [getItem JS.bind JS.try_catch].
  { split; [|reflexivity]. split; [done|]. by intros (? & ? & ? & ? & _). }
  destruct (entries !! ORDERING_STATUS_STORAGE_KEY) as [raw|] eqn:Hraw.
  2:{ split; [|reflexivity]. split; [done|]. intros (? & ? & ? & [= <-] & ? & _). congruence. }
  destruct raw as [|c raw].
  { split; [|reflexivity]. split; [done|]. intros (? & ? & ? & [= <-] & Hr & Hp & _).
    rewrite Hraw in Hr. injection Hr as <-. vm_compute in Hp. done. }
  destruct (JS.JSON_parse (String c raw)) as [parsed|e] eqn:Hp;
    cbn [JS.bind JS.try_catch closed message].
  - split; [|by apply or_else_default_truthy].
    split.
    + intros Ht. by exists entries, (String c raw), parsed.
    + intros (? & ? & ? & [= <-] & Hr & Hp' & Ht). rewrite Hraw in Hr. injection Hr as <-.
      rewrite Hp in Hp'. by injection Hp' as <-.
  - split; [|reflexivity]. split; [done|].
    intros (? & ? & ? & [= <-] & Hr & Hp' & _). rewrite Hraw in Hr. injection Hr as <-.
    congruence.
Qed.

(** A store that holds [text] as the ordering status. *)
Module Status.

Definition holding (text : string) : Storage :=
  Available {[ ORDERING_STATUS_STORAGE_KEY := text ]}.

Definition closed_for_today : Storage :=
  holding (JS.json "{'closed':true,'message':'Back at five.'}").

End Status.

(** X2. While the stored status says closed, nothing can be added: once
    the page has taken the status from the store
    ([syncOrderingStatusFromStorage]), the [Add to Cart] button of every
    menu card and [addToCart] itself leave the whole state as it is, and
    taking the status has not touched the cart. *)
Theorem closed_store_blocks_adding ls st item index po :
  closed (readOrderingStatus ls) = true ->
  cart (syncOrderingStatusFromStorage ls st).1 = cart st /\
  clickAddToCart item index (syncOrderingStatusFromStorage ls st).1
    = (syncOrderingStatusFromStorage ls st).1 /\
  addToCart item po (syncOrderingStatusFromStorage ls st).1
    = (syncOrderingStatusFromStorage ls st).1.
Proof.
  intros Hclosed. unfold syncOrderingStatusFromStorage, applyOrderingStatus. cbn [fst].
  split; [reflexivity|].
  unfold clickAddToCart, addToCart, ensureOrderingOpenOrWarn.
  cbn [orderingClosed]. rewrite Hclosed. done.
Qed.

Lemma closed_store_blocks_adding_witness :
  closed (readOrderingStatus Status.closed_for_today) = true /\
  cart (addToCart Scenario.chicken_wings (Some Scenario.three_wings)
          (syncOrderingStatusFromStorage Status.closed_for_today Scenario.pickup_two_orders).1)
    = cart Scenario.pickup_two_orders.
Proof.
  split; [vm_compute; reflexivity|].
  destruct (closed_store_blocks_adding Status.closed_for_today Scenario.pickup_two_orders
              Scenario.chicken_wings 0 (Some Scenario.three_wings))
    as (Hcart & _ & Hadd); [vm_compute; reflexivity|].
  rewrite Hadd. exact Hcart.
Defined.

(** ** The catalog and the resolver *)


Lemma portionOptions_lookup itemId options :
  portionOptions !! itemId = Some options -> (itemId, options) ∈ portionOptions_entries.
Proof. apply elem_of_list_to_map_2. Qed.







(** ** The cart: what an operation touches *)

(** The predicates of the statements below on the lines of the cart. *)
Module Lines.

(** The unit price a channel asks of a line, from the two base prices
    the line carries. *)
Definition channel_price (orderType : string) (ci : CartLine) : float :=
  if String.eqb orderType "inline"
  then default (baseOnlinePrice ci) (baseInlinePrice ci)
  else baseOnlinePrice ci.

(** The identity of a line in the cart: the item and the portion key. *)
Definition line_key (ci : CartLine) : string * option string :=
  (id ci, given (plateOptionKey ci)).

(** Every line of the cart has the unit price that the order type
    checked asks of it. *)
Definition priced_for_order_type (st : State) : Prop :=
  Forall (fun ci => price ci = channel_price (getCurrentOrderType st) ci) (cart st).

(** Whether the page lets the customer tip: the order is a delivery and
    the cart is not empty. Otherwise a page with a tip section holds no
    tip once the totals are redrawn. *)
Definition tip_allowed (st : State) : bool :=
  String.eqb (getCurrentOrderType st) "delivery"
  && match cart st with [] => false | _ => true end.

(** Whether the prices of a line do not depend on the unit price it has:
    it has a portion key, or the baseline table has an entry for its
    item. *)
Definition priced_by_table (ci : CartLine) : bool :=
  match given (plateOptionKey ci) with
  | Some _ => true
  | None => bool_decide (is_Some (items BASELINE_PRICING !! id ci))
  end.

End Lines.

Import Lines.

Lemma addToCart_touches item po st :
  orderingClosed st = false ->
  exists idx line,
    cart (addToCart item po st) !! idx = Some line /\
    (forall j, j <> idx -> cart (addToCart item po st) !! j = cart st !! j) /\
    id line = MenuData.id item /\
    given (plateOptionKey line) = given (key <$> po) /\
    price line = effectivePrice item po st /\
    price line = channel_price (getCurrentOrderType st) line /\
    match cart st !! idx with
    | Some old =>
        list_find (same_line (MenuData.id item) (key <$> po)) (cart st) = Some (idx, old) /\
        quantity line = quantity old + 1 /\
        name line = name old /\ plateOptionKey line = plateOptionKey old /\
        sauce line = sauce old /\ freeSide line = freeSide old /\
        length (cart (addToCart item po st)) = length (cart st)
    | None =>
        list_find (same_line (MenuData.id item) (key <$> po)) (cart st) = None /\
        idx = length (cart st) /\ quantity line = 1 /\
        cart (addToCart item po st) = cart st ++ [line]
    end.
Proof.
  intros Hopen. unfold addToCart, ensureOrderingOpenOrWarn. rewrite Hopen. cbn [negb].
  rewrite (proj1 (refresh_frame _)). cbn [cart set_cart].
  destruct (list_find _ (cart st)) as [[idx existing]|] eqn:Hfind.
  - pose proof Hfind as (Hidx & [Hid Hkey] & _)%list_find_Some.
    pose proof (lookup_lt_Some _ _ _ Hidx) as Hlt.
    eexists idx, _. split.
    { rewrite list_lookup_insert. rewrite decide_True by done. reflexivity. }
    split; [intros j Hj; by apply list_lookup_insert_ne|].
    rewrite Hidx. cbn [id plateOptionKey price quantity name sauce freeSide
                       baseOnlinePrice baseInlinePrice].
    rewrite length_insert. unfold effectivePrice, channel_price.
    destruct po; repeat split; try done.
  - eexists (length (cart st)), _. split.
    { rewrite lookup_app_r by done. rewrite Nat.sub_diag. reflexivity. }
    split.
    { intros j Hj. destruct (decide (j < length (cart st))%nat) as [Hlt|Hge].
      - by apply lookup_app_l.
      - rewrite lookup_app_r by lia.
        destruct (j - length (cart st))%nat as [|n] eqn:Hn; [lia|].
        cbn. symmetry. apply lookup_ge_None. lia. }
    rewrite (proj2 (lookup_ge_None _ _)) by done.
    cbn [id plateOptionKey price quantity baseOnlinePrice baseInlinePrice].
    rewrite given_idem. unfold effectivePrice, channel_price.
    destruct po; repeat split; try done.
Qed.

(** ** Menu cards *)




(** The price of the item is read for a line without portion key only. *)
Lemma getEffectivePricingForItem_price itemId p1 p2 portionKey overrides :
  is_Some (given portionKey) ->
  getEffectivePricingForItem itemId p1 portionKey overrides
  = getEffectivePricingForItem itemId p2 portionKey overrides.
Proof.
  intros [k Hk]. unfold getEffectivePricingForItem. by rewrite Hk.
Qed.


Lemma at_number_elem_of {A} (l : list A) x a : at_number l x = Some a -> a ∈ l.
Proof.
  unfold at_number. destruct (to_index x) as [i|]; [|done].
  destruct (i <? _)%Z; [|done]. apply list_elem_of_lookup_2.
Qed.

Lemma find_elem_of {A} (f : A -> bool) l a : List.find f l = Some a -> a ∈ l.
Proof. intros [Hin _]%find_some. by apply list_elem_of_In. Qed.

(** An item with portion options always has prices. *)
Lemma getEffectivePricingForItem_options itemId itemPrice portionKey overrides first rest :
  portionOptions !! itemId = Some (first :: rest) ->
  is_Some (getEffectivePricingForItem itemId itemPrice portionKey overrides).
Proof.
  intros Hopts. unfold getEffectivePricingForItem.
  destruct (getEffectivePrices _ _ _); [by eexists|].
  destruct (given portionKey); [|by eexists].
  rewrite Hopts. cbn [default]. by destruct (List.find _ _).
Qed.

Lemma portionOptions_nonempty itemId : portionOptions !! itemId <> Some [].
Proof.
  intros Hopts%portionOptions_lookup. unfold portionOptions_entries, kabob_portions in Hopts.
  repeat (apply elem_of_cons in Hopts as [Heq|Hopts]; [congruence|]).
  by apply elem_of_nil in Hopts.
Qed.




(** The option a number or a key selects: the second option by index or
    by key; the first for an index out of range, a fraction, a negative
    number, NaN, or an unknown key; nothing for an item without
    options. *)
Example getPortionPriceForOrderType_examples :
  (fst <$> getPortionPriceForOrderType "chicken_wings" (JS.Number 1) "inline" empty_overrides)
    = Some Scenario.three_wings /\
  (snd <$> getPortionPriceForOrderType "chicken_wings" (JS.Number 1) "inline" empty_overrides)
    = Some 13 /\
  (snd <$> getPortionPriceForOrderType "chicken_wings" (JS.Str "3_wings") "pickup" empty_overrides)
    = Some 15 /\
  (snd <$> getPortionPriceForOrderType "chicken_wings" (JS.Number 3) "pickup" empty_overrides)
    = Some 11 /\
  (snd <$> getPortionPriceForOrderType "chicken_wings" (JS.Number 1.5) "pickup" empty_overrides)
    = Some 11 /\
  (snd <$> getPortionPriceForOrderType "chicken_wings" (JS.Number (-1)) "pickup" empty_overrides)
    = Some 11 /\
  (snd <$> getPortionPriceForOrderType "chicken_wings" (JS.Number (-0)) "pickup" empty_overrides)
    = Some 11 /\
  (snd <$> getPortionPriceForOrderType "chicken_wings" (JS.Number nan) "pickup" empty_overrides)
    = Some 11 /\
  (snd <$> getPortionPriceForOrderType "chicken_wings" (JS.Str "5_wings") "pickup" empty_overrides)
    = Some 11 /\
  (snd <$> getPortionPriceForOrderType "chicken_wings" JS.Undefined "pickup" empty_overrides)
    = Some 11 /\
  getPortionPriceForOrderType "salmon" (JS.Number 0) "pickup" empty_overrides = None.
Proof. repeat split; vm_compute; reflexivity. Qed.

(** ** The cart: frames and invariants *)

(** X7. [addToCart] changes one position of the cart and nothing else:
    while ordering is open it either raises by one the quantity of the
    first line with the same item and portion key, which keeps its name,
    its sauce and its free side, or appends a line of quantity 1 when
    there is no such line. Every other line stays where it is, as it is,
    whatever the cart holds. *)
Theorem addToCart_changes_one_line item po st :
  orderingClosed st = false ->
  exists idx line,
    cart (addToCart item po st) !! idx = Some line /\
    (forall j, j <> idx -> cart (addToCart item po st) !! j = cart st !! j) /\
    same_line (MenuData.id item) (key <$> po) line /\
    match cart st !! idx with
    | Some old =>
        list_find (same_line (MenuData.id item) (key <$> po)) (cart st) = Some (idx, old) /\
        quantity line = quantity old + 1 /\
        name line = name old /\ sauce line = sauce old /\ freeSide line = freeSide old /\
        length (cart (addToCart item po st)) = length (cart st)
    | None =>
        list_find (same_line (MenuData.id item) (key <$> po)) (cart st) = None /\
        quantity line = 1 /\
        cart (addToCart item po st) = cart st ++ [line]
    end.
Proof.
  intros Hopen.
  destruct (addToCart_touches item po st Hopen)
    as (idx & line & Hline & Hframe & Hid & Hkey & _ & _ & Hold).
  exists idx, line. split; [done|]. split; [done|]. split; [by split|].
  destruct (cart st !! idx) as [old|].
  - by destruct Hold as (? & ? & ? & _ & ? & ? & ?).
  - by destruct Hold as (? & _ & ? & ?).
Qed.

Lemma addToCart_changes_one_line_witness :
  exists idx line,
    cart (addToCart Scenario.chicken_wings (Some Scenario.two_wings) Scenario.two_portions) !! idx
      = Some line /\
    (forall j, j <> idx ->
       cart (addToCart Scenario.chicken_wings (Some Scenario.two_wings) Scenario.two_portions) !! j
       = cart Scenario.two_portions !! j) /\
    same_line "chicken_wings" (Some "2_wings") line /\
    match cart Scenario.two_portions !! idx with
    | Some old =>
        list_find (same_line "chicken_wings" (Some "2_wings")) (cart Scenario.two_portions)
          = Some (idx, old) /\
        quantity line = quantity old + 1 /\
        name line = name old /\ sauce line = sauce old /\ freeSide line = freeSide old /\
        length (cart (addToCart Scenario.chicken_wings (Some Scenario.two_wings)
                        Scenario.two_portions))
        = length (cart Scenario.two_portions)
    | None =>
        list_find (same_line "chicken_wings" (Some "2_wings")) (cart Scenario.two_portions)
          = None /\
        quantity line = 1 /\
        cart (addToCart Scenario.chicken_wings (Some Scenario.two_wings) Scenario.two_portions)
        = cart Scenario.two_portions ++ [line]
    end.
Proof.
  apply (addToCart_changes_one_line Scenario.chicken_wings (Some Scenario.two_wings)
           Scenario.two_portions).
  vm_compute. reflexivity.
Defined.

Lemma updateQuantity_cart itemId delta st :
  cart (updateQuantity itemId delta st) =
  match list_find (fun ci => id ci = itemId) (cart st) with
  | Some (idx, line) =>
      if quantity line + delta <=? 0 then delete idx (cart st)
      else <[ idx := add_quantity delta line ]> (cart st)
  | None => cart st
  end.
Proof.
  unfold updateQuantity. destruct (list_find _ _) as [[idx line]|]; [|done].
  rewrite (proj1 (renderCart_frame _)). reflexivity.
Qed.

(** X8. [updateQuantity] touches the first line of the item and no other:
    the lines of the other items are the same before and after, in the
    same order; the cart never grows; and unless the cart has a line of
    the item, the whole state is left as it is. *)
Theorem updateQuantity_keeps_other_items itemId delta st :
  filter (fun ci => id ci <> itemId) (cart (updateQuantity itemId delta st))
  = filter (fun ci => id ci <> itemId) (cart st) /\
  (length (cart (updateQuantity itemId delta st)) <= length (cart st))%nat /\
  (Exists (fun ci => id ci = itemId) (cart st) \/ updateQuantity itemId delta st = st).
Proof.
  split; [|split].
  - rewrite updateQuantity_cart.
    destruct (list_find _ _) as [[idx line]|] eqn:Hfind; [|done].
    apply list_find_Some in Hfind as (Hidx & Hid & _).
    pose proof (lookup_lt_Some _ _ _ Hidx) as Hlt.
    rewrite <- (take_drop_middle _ _ _ Hidx) at 3.
    destruct (_ <=? _).
    + rewrite delete_take_drop, !filter_app, filter_cons_False; [done|].
      by intros [].
    + rewrite insert_take_drop by done.
      rewrite !filter_app, !filter_cons_False; [done| |]; by intros [].
  - rewrite updateQuantity_cart.
    destruct (list_find _ _) as [[idx line]|] eqn:Hfind; [|done].
    destruct (_ <=? _).
    + rewrite length_delete; [lia|]. apply list_find_Some in Hfind as (Hidx & _). by eexists.
    + by rewrite length_insert.
  - unfold updateQuantity.
    destruct (list_find _ _) as [[idx line]|] eqn:Hfind; [left|by right].
    apply list_find_Some in Hfind as (Hidx & Hid & _).
    apply Exists_exists. exists line. split; [|done]. by eapply list_elem_of_lookup_2.
Qed.

Lemma applyPricingToLine_key orderType overrides ci :
  line_key (applyPricingToLine orderType overrides ci) = line_key ci.
Proof. reflexivity. Qed.

Lemma applyPricingForOrderType_keys st :
  line_key <$> cart (applyPricingForOrderType st) = line_key <$> cart st.
Proof.
  unfold applyPricingForOrderType. cbn [cart set_cart].
  induction (cart st) as [|ci l IH]; [done|]. cbn. by rewrite <- IH.
Qed.

(** X9. One line per item and portion key: if no two lines of the cart
    have the same item and portion key, this is still so after
    [addToCart], after [updateQuantity] and after
    [applyPricingForOrderType], whatever their arguments. The cart of a
    page starts empty, so it never holds two lines that [addToCart]
    would take for the same. *)
Theorem one_line_per_key_preserved st item po itemId delta :
  NoDup (line_key <$> cart st) ->
  NoDup (line_key <$> cart (addToCart item po st)) /\
  NoDup (line_key <$> cart (updateQuantity itemId delta st)) /\
  NoDup (line_key <$> cart (applyPricingForOrderType st)).
Proof.
  intros Hnodup. split; [|split].
  - destruct (orderingClosed st) eqn:Hopen.
    { unfold addToCart, ensureOrderingOpenOrWarn. by rewrite Hopen. }
    destruct (addToCart_touches item po st Hopen)
      as (idx & line & Hline & Hframe & Hid & Hkey & _ & _ & Hold).
    destruct (cart st !! idx) as [old|] eqn:Hidx.
    + destruct Hold as ((_ & [Hid' Hkey'] & _)%list_find_Some & _).
      assert (line_key <$> cart (addToCart item po st) = line_key <$> cart st) as ->; [|done].
      apply list_eq. intros j. rewrite !list_lookup_fmap.
      destruct (decide (j = idx)) as [->|Hj]; [|by rewrite Hframe].
      rewrite Hline, Hidx. cbn. unfold line_key. congruence.
    + destruct Hold as (Hfind & _ & _ & ->). rewrite fmap_app.
      apply NoDup_app. split; [done|]. split; [|apply NoDup_singleton].
      intros k (ci & -> & Hci)%list_elem_of_fmap Hk%list_elem_of_singleton.
      apply list_find_None in Hfind. rewrite Forall_forall in Hfind.
      apply (Hfind ci Hci). unfold line_key in Hk. injection Hk as Hk1 Hk2.
      split; congruence.
  - rewrite updateQuantity_cart.
    destruct (list_find _ _) as [[idx line]|] eqn:Hfind; [|done].
    apply list_find_Some in Hfind as (Hidx & Hid & _).
    destruct (_ <=? _).
    + eapply sublist_NoDup; [exact Hnodup|]. apply fmap_sublist, sublist_delete.
    + rewrite list_fmap_insert, list_insert_id; [done|].
      by rewrite list_lookup_fmap, Hidx.
  - by rewrite applyPricingForOrderType_keys.
Qed.

Lemma one_line_per_key_witness :
  NoDup (line_key <$> cart (addToCart Scenario.chicken_wings (Some Scenario.two_wings)
                              Scenario.two_portions)) /\
  NoDup (line_key <$> cart (updateQuantity "chicken_wings" (-1) Scenario.two_portions)) /\
  NoDup (line_key <$> cart (applyPricingForOrderType Scenario.two_portions)).
Proof.
  apply (one_line_per_key_preserved Scenario.two_portions Scenario.chicken_wings
           (Some Scenario.two_wings) "chicken_wings" (-1)).
  vm_compute. apply (bool_decide_unpack _). vm_compute. reflexivity.
Defined.

(** ** Prices of the lines and the order type *)

Lemma getCurrentOrderType_checked st st' :
  checkedOrderType st' = checkedOrderType st -> getCurrentOrderType st' = getCurrentOrderType st.
Proof. unfold getCurrentOrderType. by intros ->. Qed.

Lemma addToCart_orderType item po st :
  getCurrentOrderType (addToCart item po st) = getCurrentOrderType st.
Proof.
  apply getCurrentOrderType_checked. unfold addToCart.
  destruct (negb _); [done|].
  rewrite (proj2 (proj2 (proj2 (updateCartTotals_frame _)))).
  by rewrite (proj2 (proj2 (proj2 (renderCart_frame _)))).
Qed.

Lemma updateQuantity_orderType itemId delta st :
  getCurrentOrderType (updateQuantity itemId delta st) = getCurrentOrderType st.
Proof.
  apply getCurrentOrderType_checked. unfold updateQuantity.
  destruct (list_find _ _) as [[idx line]|]; [|done].
  by rewrite (proj2 (proj2 (proj2 (renderCart_frame _)))).
Qed.

(** X10. Lines stay priced for the order type: if every line of the cart
    has the unit price of the order type checked (its in-store base price
    for an in-store order, its online base price otherwise), this is
    still so after [addToCart] and after [updateQuantity], whatever
    their arguments. *)
Theorem priced_for_order_type_preserved st item po itemId delta :
  priced_for_order_type st ->
  priced_for_order_type (addToCart item po st) /\
  priced_for_order_type (updateQuantity itemId delta st).
Proof.
  unfold priced_for_order_type. intros Hst. split.
  - rewrite addToCart_orderType.
    destruct (orderingClosed st) eqn:Hopen.
    { unfold addToCart, ensureOrderingOpenOrWarn. by rewrite Hopen. }
    destruct (addToCart_touches item po st Hopen)
      as (idx & line & Hline & Hframe & _ & _ & _ & Hprice & _).
    apply Forall_lookup. intros j ci Hj.
    destruct (decide (j = idx)) as [->|Hne].
    + rewrite Hline in Hj. by injection Hj as <-.
    + rewrite Hframe in Hj by done. by eapply (proj1 (Forall_lookup _ _) Hst).
  - rewrite updateQuantity_orderType, updateQuantity_cart.
    destruct (list_find _ _) as [[idx line]|] eqn:Hfind; [|done].
    apply list_find_Some in Hfind as (Hidx & _).
    destruct (_ <=? _).
    + by apply Forall_delete.
    + apply Forall_insert; [done|].
      by apply (proj1 (Forall_lookup _ _) Hst idx line).
Qed.

Lemma priced_for_order_type_witness :
  priced_for_order_type (addToCart Scenario.chicken_wings (Some Scenario.two_wings)
                           Scenario.two_portions) /\
  priced_for_order_type (updateQuantity "chicken_wings" 1 Scenario.two_portions).
Proof.
  apply (priced_for_order_type_preserved Scenario.two_portions Scenario.chicken_wings
           (Some Scenario.two_wings) "chicken_wings" 1).
  vm_compute. repeat constructor.
Defined.

Lemma applyPricingForOrderType_priced st :
  Forall (fun ci => price ci = channel_price (getCurrentOrderType st) ci)
         (cart (applyPricingForOrderType st)).
Proof.
  unfold applyPricingForOrderType. cbn [cart set_cart].
  apply Forall_forall. intros ci' Hin. apply list_elem_of_In, in_map_iff in Hin as (ci & <- & _).
  unfold channel_price. cbn. by destruct (String.eqb _ _).
Qed.

(** What redrawing the cart leaves alone, besides the cart. *)
Lemma updateTipSection_fee st :
  deliveryFee (updateTipSection st) = deliveryFee st /\
  hasTipSection (updateTipSection st) = hasTipSection st /\
  inlinePreviewMode (updateTipSection st) = inlinePreviewMode st.
Proof.
  unfold updateTipSection.
  destruct (negb (hasTipSection st)); [done|].
  destruct (_ || _); done.
Qed.

Lemma computeTotals_fee st :
  deliveryFee (computeTotals st).2 = deliveryFee st /\
  hasTipSection (computeTotals st).2 = hasTipSection st /\
  currentTipAmount (computeTotals st).2 = currentTipAmount st /\
  currentTipPercent (computeTotals st).2 = currentTipPercent st /\
  inlinePreviewMode (computeTotals st).2
  = (inlinePreviewMode st && String.eqb (getCurrentOrderType st) "inline").
Proof.
  unfold computeTotals. cbn [snd].
  destruct (String.eqb (getCurrentOrderType st) "inline"); cbn [negb];
    rewrite ?andb_true_r, ?andb_false_r; done.
Qed.

Lemma updateCartTotals_fee st :
  deliveryFee (updateCartTotals st) = deliveryFee st /\
  hasTipSection (updateCartTotals st) = hasTipSection st /\
  inlinePreviewMode (updateCartTotals st)
  = (inlinePreviewMode st && String.eqb (getCurrentOrderType st) "inline").
Proof.
  unfold updateCartTotals.
  destruct (updateTipSection_fee (computeTotals st).2) as (-> & -> & ->).
  destruct (computeTotals_fee st) as (-> & -> & _ & _ & ->). done.
Qed.

Lemma renderCart_fee st :
  deliveryFee (renderCart st) = deliveryFee st /\
  hasTipSection (renderCart st) = hasTipSection st /\
  inlinePreviewMode (renderCart st)
  = (inlinePreviewMode st && String.eqb (getCurrentOrderType st) "inline").
Proof.
  unfold renderCart.
  destruct (updateTipSection_fee (updateCartTotals st)) as (-> & -> & ->).
  apply updateCartTotals_fee.
Qed.

Lemma updateTipSection_tip st :
  (currentTipPercent (updateTipSection st), currentTipAmount (updateTipSection st))
  = if hasTipSection st && negb (tip_allowed st) then (Percent 0, 0)
    else (currentTipPercent st, currentTipAmount st).
Proof.
  unfold updateTipSection, tip_allowed.
  destruct (hasTipSection st); cbn [negb andb]; [|done].
  destruct (String.eqb _ _); cbn [negb orb andb]; [|done].
  by destruct (cart st).
Qed.

Lemma updateCartTotals_tip st :
  (currentTipPercent (updateCartTotals st), currentTipAmount (updateCartTotals st))
  = if hasTipSection st && negb (tip_allowed st) then (Percent 0, 0)
    else (currentTipPercent st, currentTipAmount st).
Proof.
  unfold updateCartTotals. rewrite updateTipSection_tip.
  destruct (computeTotals_fee st) as (_ & -> & -> & -> & _).
  unfold tip_allowed.
  rewrite (proj1 (computeTotals_frame st)).
  by rewrite (getCurrentOrderType_checked _ _ (proj2 (proj2 (proj2 (computeTotals_frame st))))).
Qed.

Lemma getCurrentOrderType_nonempty st : getCurrentOrderType st <> "".
Proof. unfold getCurrentOrderType. by destruct (checkedOrderType st) as [[|]|]. Qed.

Lemma saveField_available entries k v :
  v <> "" -> saveField (Available entries) k v = JS.Normal (Available (<[ k := v ]> entries)).
Proof. by destruct v. Qed.


(** The state [updateOrderType] leaves when the store takes the write. *)
Lemma updateOrderType_available entries st :
  updateOrderType (Available entries) st =
  (JS.Normal (Available (<[ "kg_orderType" := getCurrentOrderType st ]> entries)),
   updateCartTotals (updateTipSection (renderCart (applyPricingForOrderType
     (if String.eqb (getCurrentOrderType st) "delivery" then st
      else updateCartTotals (set_deliveryFee 0 st)))))).
Proof.
  unfold updateOrderType.
  by rewrite (saveField_available _ _ _ (getCurrentOrderType_nonempty st)).
Qed.

(** X11. [updateOrderType] prices the cart for the order type checked:
    when the store takes the write of the order type, it leaves every
    line with the unit price of that order type, each line being the
    line it was (same item, portion key and quantity) priced again by
    [applyPricingForOrderType]; the order type is recorded in the store;
    and when the order is not a delivery, the delivery fee held by the
    page is 0 afterwards. *)
Theorem updateOrderType_prices_cart entries st :
  (updateOrderType (Available entries) st).1
  = JS.Normal (Available (<[ "kg_orderType" := getCurrentOrderType st ]> entries)) /\
  getCurrentOrderType (updateOrderType (Available entries) st).2 = getCurrentOrderType st /\
  cart (updateOrderType (Available entries) st).2
  = map (applyPricingToLine (getCurrentOrderType st) (priceOverrides st)) (cart st) /\
  priced_for_order_type (updateOrderType (Available entries) st).2 /\
  (deliveryFee (updateOrderType (Available entries) st).2
   = if String.eqb (getCurrentOrderType st) "delivery" then deliveryFee st else 0).
Proof.
  rewrite updateOrderType_available. cbn [fst snd].
  set (st1 := if String.eqb (getCurrentOrderType st) "delivery" then st
              else updateCartTotals (set_deliveryFee 0 st)).
  assert (Hst1 : cart st1 = cart st /\ checkedOrderType st1 = checkedOrderType st /\
                 priceOverrides st1 = priceOverrides st /\
                 deliveryFee st1 = if String.eqb (getCurrentOrderType st) "delivery"
                                   then deliveryFee st else 0).
  { subst st1. destruct (String.eqb _ _); [done|].
    destruct (updateCartTotals_frame (set_deliveryFee 0 st)) as (-> & _ & -> & ->).
    by rewrite (proj1 (updateCartTotals_fee _)). }
  destruct Hst1 as (Hcart1 & Hchecked1 & Hov1 & Hfee1).
  pose proof (getCurrentOrderType_checked _ _ Hchecked1) as Hot1.
  set (st2 := applyPricingForOrderType st1).
  assert (Hfinal : forall s, cart (updateCartTotals (updateTipSection (renderCart s))) = cart s /\
            checkedOrderType (updateCartTotals (updateTipSection (renderCart s)))
            = checkedOrderType s /\
            deliveryFee (updateCartTotals (updateTipSection (renderCart s))) = deliveryFee s).
  { intros s.
    destruct (updateCartTotals_frame (updateTipSection (renderCart s))) as (-> & _ & _ & ->).
    destruct (updateTipSection_frame (renderCart s)) as (-> & _ & _ & ->).
    destruct (renderCart_frame s) as (-> & _ & _ & ->).
    rewrite (proj1 (updateCartTotals_fee _)), (proj1 (updateTipSection_fee _)),
            (proj1 (renderCart_fee _)). done. }
  destruct (Hfinal st2) as (Hcart & Hchecked & Hfee).
  pose proof (getCurrentOrderType_checked _ _ Hchecked) as Hot.
  split; [done|]. split; [by rewrite Hot|].
  split; [rewrite Hcart; subst st2; unfold applyPricingForOrderType; cbn [cart set_cart];
          by rewrite Hcart1, Hov1, Hot1|].
  split.
  - unfold priced_for_order_type. rewrite Hot, Hcart.
    exact (applyPricingForOrderType_priced st1).
  - by rewrite Hfee.
Qed.

(** X12. When the store cannot be written, [updateOrderType] throws at
    the write of the order type, before the lines are priced again: the
    cart it leaves is the cart it found, with the prices of the order
    type checked before. *)
Theorem updateOrderType_storage_failure st :
  (updateOrderType Unavailable st).1 = JS.Throw JS.SecurityError /\
  cart (updateOrderType Unavailable st).2 = cart st.
Proof.
  unfold updateOrderType.
  assert (saveField Unavailable "kg_orderType" (getCurrentOrderType st)
          = JS.Throw JS.SecurityError) as ->.
  { pose proof (getCurrentOrderType_nonempty st). by destruct (getCurrentOrderType st). }
  cbn [fst snd]. split; [done|].
  destruct (String.eqb _ _); [done|]. by rewrite (proj1 (updateCartTotals_frame _)).
Qed.



(** A store in which three wings are priced at 12.50 in store. *)
Module NewPrices.


End NewPrices.


Lemma applyPricingToLine_twice ot1 ot2 overrides ci :
  priced_by_table ci = true ->
  applyPricingToLine ot2 overrides (applyPricingToLine ot1 overrides ci)
  = applyPricingToLine ot2 overrides ci.
Proof.
  intros Htable.
  set (pricing := getEffectivePricingForItem (id ci) (price ci) (given (plateOptionKey ci))
                    overrides).
  set (ci1 := applyPricingToLine ot1 overrides ci).
  assert (Hpricing :
    getEffectivePricingForItem (id ci1) (price ci1) (given (plateOptionKey ci1)) overrides
    = pricing).
  { change (id ci1) with (id ci). change (plateOptionKey ci1) with (plateOptionKey ci).
    unfold priced_by_table in Htable. subst pricing.
    pose proof (given_idem (plateOptionKey ci)) as Hidem.
    destruct (given (plateOptionKey ci)) as [k|] eqn:Hk.
    - apply getEffectivePricingForItem_price. rewrite Hidem. by eexists.
    - apply bool_decide_eq_true_1 in Htable as [base Hbase].
      unfold getEffectivePricingForItem. rewrite !getEffectivePrices_unfold.
      unfold Resolver.baseline_entry. cbn [given]. rewrite Hbase. done. }
  assert (Hbase1 :
    baseOnlinePrice ci1 = match pricing with
                          | Some pricing => online pricing
                          | None => baseOnlinePrice ci
                          end /\
    baseInlinePrice ci1
    = Some match pricing with
           | Some pricing => inline pricing
           | None => match baseInlinePrice ci with
                     | Some p => p
                     | None => computeInlineBasePrice (baseOnlinePrice ci) (id ci)
                     end
           end).
  { clear Hpricing. subst ci1 pricing. unfold applyPricingToLine.
    cbn [baseOnlinePrice baseInlinePrice].
    destruct (getEffectivePricingForItem _ _ _ _); split; reflexivity. }
  destruct Hbase1 as [Honline1 Hinline1].
  unfold applyPricingToLine. rewrite Hpricing, Honline1, Hinline1.
  fold pricing.
  change (id ci1) with (id ci). change (name ci1) with (name ci).
  change (quantity ci1) with (quantity ci).
  change (plateOptionKey ci1) with (plateOptionKey ci).
  change (plateOptionLabel ci1) with (plateOptionLabel ci).
  change (sauce ci1) with (sauce ci). change (freeSide ci1) with (freeSide ci).
  by destruct pricing.
Qed.

(** X14. Pricing the cart again forgets the order type it was priced
    for: when the prices of every line come from its portion key or from
    the baseline table (as for every line made from the catalog),
    pricing the cart for one order type and then for another leaves it
    as pricing it for the second at once. So moving the order type away
    and back restores every price, and pricing twice is pricing once. *)
Theorem repricing_forgets_order_type c1 c2 st :
  forallb priced_by_table (cart st) = true ->
  applyPricingForOrderType
    (set_checkedOrderType c2 (applyPricingForOrderType (set_checkedOrderType c1 st)))
  = applyPricingForOrderType (set_checkedOrderType c2 st).
Proof.
  intros Htable. unfold applyPricingForOrderType, set_cart, set_checkedOrderType.
  cbn [cart checkedOrderType deliveryFee currentTipPercent currentTipAmount orderingClosed
       inlinePreviewMode priceOverrides hasTipSection].
  f_equal.
  change (getCurrentOrderType _) with (getCurrentOrderType (set_checkedOrderType c2 st)) at 1.
  set (ot2 := getCurrentOrderType (set_checkedOrderType c2 st)).
  set (ot1 := getCurrentOrderType _).
  induction (cart st) as [|ci l IH]; [done|].
  cbn [forallb] in Htable. apply andb_true_iff in Htable as [Hci Hl].
  cbn [map]. rewrite applyPricingToLine_twice by done. f_equal. by apply IH.
Qed.

Lemma repricing_forgets_order_type_witness :
  applyPricingForOrderType
    (set_checkedOrderType (Some "pickup")
       (applyPricingForOrderType (set_checkedOrderType (Some "inline") Scenario.two_portions)))
  = applyPricingForOrderType (set_checkedOrderType (Some "pickup") Scenario.two_portions).
Proof.
  apply (repricing_forgets_order_type (Some "inline") (Some "pickup") Scenario.two_portions).
  vm_compute. reflexivity.
Defined.

(** ** Tips *)

Lemma ltb_leb x y : (x <? y) = true -> (x <=? y) = true.
Proof.
  rewrite ltb_spec, leb_spec. unfold SFltb, SFleb.
  by destruct (SFcompare _ _) as [[]|].
Qed.

Lemma updateCartTotals_tipAmount st :
  currentTipAmount (updateCartTotals st)
  = (if hasTipSection st && negb (tip_allowed st) then 0 else currentTipAmount st) /\
  currentTipPercent (updateCartTotals st)
  = (if hasTipSection st && negb (tip_allowed st) then Percent 0 else currentTipPercent st).
Proof.
  pose proof (updateCartTotals_tip st) as H.
  destruct (hasTipSection st && negb (tip_allowed st)); by injection H as -> ->.
Qed.

(** X15. The custom tip is never negative, NaN or infinite: whatever
    text the custom tip input holds, the tip amount the page holds after
    its listener has run is a finite number that is at least 0 (the
    number the text starts with when that is finite and above 0, and 0
    otherwise). *)
Theorem custom_tip_is_sanitised value st :
  Num.isFinite (currentTipAmount (inputCustomTip value st)) = true /\
  (0 <=? currentTipAmount (inputCustomTip value st)) = true.
Proof.
  unfold inputCustomTip. rewrite (proj1 (updateCartTotals_tipAmount _)).
  cbn [hasTipSection set_tip currentTipAmount].
  destruct (hasTipSection st && negb _); [done|].
  destruct (Num.isFinite (JS.parseFloat_string value)) eqn:Hfin; cbn [andb]; [|done].
  destruct (0 <? JS.parseFloat_string value) eqn:Hpos; [|done].
  split; [done|]. by apply ltb_leb.
Qed.

(** What the custom tip input makes of some texts, for a delivery with
    one line in the cart. *)
Example inputCustomTip_examples :
  let st := Scenario.with_fee_and_tip "delivery" in
  currentTipAmount (inputCustomTip "3.50" st) = 3.5 /\
  currentTipAmount (inputCustomTip "-2" st) = 0 /\
  currentTipAmount (inputCustomTip "abc" st) = 0 /\
  currentTipAmount (inputCustomTip "" st) = 0 /\
  currentTipAmount (inputCustomTip "1e999" st) = 0 /\
  currentTipAmount (inputCustomTip "4 dollars" st) = 4.
Proof. repeat split; vm_compute; reflexivity. Qed.

(** X16. No tip outside delivery: on a page with a tip section, when the
    order is not a delivery or the cart is empty, the tip buttons and
    the custom tip input leave the page with a tip amount of 0 and a tip
    percentage of 0, whatever is clicked or typed. *)
Theorem no_tip_outside_delivery pctAttr value st :
  hasTipSection st = true ->
  tip_allowed st = false ->
  currentTipAmount (clickTipButton pctAttr st) = 0 /\
  currentTipPercent (clickTipButton pctAttr st) = Percent 0 /\
  currentTipAmount (inputCustomTip value st) = 0 /\
  currentTipPercent (inputCustomTip value st) = Percent 0.
Proof.
  intros Hsection Hallowed. unfold clickTipButton, inputCustomTip.
  rewrite !(proj1 (updateCartTotals_tipAmount _)), !(proj2 (updateCartTotals_tipAmount _)).
  assert (Hset : forall p a, hasTipSection (set_tip p a st) && negb (tip_allowed (set_tip p a st))
                             = true).
  { intros p a. change (hasTipSection (set_tip p a st)) with (hasTipSection st).
    change (tip_allowed (set_tip p a st)) with (tip_allowed st).
    by rewrite Hsection, Hallowed. }
  rewrite !Hset. destruct (String.eqb pctAttr "custom"); by rewrite !Hset.
Qed.

Lemma no_tip_outside_delivery_witness :
  currentTipAmount (clickTipButton "0.2" (Scenario.with_fee_and_tip "pickup")) = 0 /\
  currentTipPercent (clickTipButton "0.2" (Scenario.with_fee_and_tip "pickup")) = Percent 0 /\
  currentTipAmount (inputCustomTip "3.50" (Scenario.with_fee_and_tip "pickup")) = 0 /\
  currentTipPercent (inputCustomTip "3.50" (Scenario.with_fee_and_tip "pickup")) = Percent 0.
Proof.
  apply (no_tip_outside_delivery "0.2" "3.50" (Scenario.with_fee_and_tip "pickup"));
    vm_compute; reflexivity.
Defined.






(** ** Location: the in-store radius and the delivery fee *)





(** X19. The in-store radius and the delivery fee measure the same
    distance. [requireInlineProximity] measures from the customer to the
    restaurant and [showMapAndDistance] from the restaurant to the
    customer: for every position it is the same number, so the customer
    is within the radius exactly when that distance is at most the
    radius of one mile, and the delivery fee held afterwards is
    [computeDeliveryFee] of it. At the restaurant itself the customer is
    within the radius and the delivery fee is the base fee of 3.00. *)
Theorem radius_and_fee_use_one_distance {M : MathLib} (laws : MathLaws M)
    latitude longitude allowPreviewMode userCoords st :
  deliveryFee (showMapAndDistance (Some {| lat := latitude; lon := longitude |}) st)
  = computeDeliveryFee
      (computeDistanceMiles (lat restaurantCoords) (lon restaurantCoords) latitude longitude) /\
  requireInlineProximity allowPreviewMode (Position latitude longitude) userCoords st
  = (if computeDistanceMiles (lat restaurantCoords) (lon restaurantCoords) latitude longitude
        <=? INLINE_RADIUS_MILES
     then (Some {| lat := latitude; lon := longitude |}, setInlinePreviewMode false st, true)
     else (Some {| lat := latitude; lon := longitude |}, setInlinePreviewMode true st,
           allowPreviewMode)) /\
  deliveryFee (showMapAndDistance (Some restaurantCoords) st) = 3 /\
  (requireInlineProximity allowPreviewMode
     (Position (lat restaurantCoords) (lon restaurantCoords)) userCoords st).2 = true.
Proof.
  split; [|split; [|split]].
  - unfold showMapAndDistance. by rewrite (proj1 (updateCartTotals_fee _)).
  - unfold requireInlineProximity. cbn [lat lon].
    by rewrite (distance_symmetric latitude longitude).
  - unfold showMapAndDistance. rewrite (proj1 (updateCartTotals_fee _)).
    cbn [deliveryFee set_deliveryFee]. by rewrite distance_zero.
  - unfold requireInlineProximity. cbn [lat lon]. by rewrite distance_zero.
Qed.

Lemma radius_and_fee_witness :
  deliveryFee (showMapAndDistance (M := SmallAngle.math)
                 (Some {| lat := 39.9526; lon := -75.1652 |}) (Scenario.start "delivery"))
  = computeDeliveryFee
      (computeDistanceMiles (M := SmallAngle.math)
         (lat restaurantCoords) (lon restaurantCoords) 39.9526 (-75.1652)) /\
  (requireInlineProximity (M := SmallAngle.math) false
     (Position (lat restaurantCoords) (lon restaurantCoords)) None (Scenario.start "inline")).2
  = true.
Proof.
  destruct (radius_and_fee_use_one_distance SmallAngle.laws 39.9526 (-75.1652) false None
              (Scenario.start "delivery")) as (Hfee & _).
  destruct (radius_and_fee_use_one_distance SmallAngle.laws 39.9526 (-75.1652) false None
              (Scenario.start "inline")) as (_ & _ & _ & Hnear).
  split; [exact Hfee | exact Hnear].
Defined.

(** ** Checkout *)

Lemma or_else_or_else x : Num.or_else (Num.or_else x 0) 0 = Num.or_else x 0.
Proof. unfold Num.or_else. destruct (Num.truthy x) eqn:Hx; [by rewrite Hx|done]. Qed.

Lemma eqb_empty_false s : String.eqb s "" = false -> s <> "".
Proof. by intros H%String.eqb_neq. Qed.

(** X20. What the express checkout sends: [startStripeCheckout] sends a
    request only for a cart that is not empty and a customer with a name
    and a phone number; the lines it sends are the lines of the cart, in
    order, with at most one line after them, and that line is the
    delivery fee, in cents and above 0, of an order for delivery with an
    address. It never sends a line for service and tax. *)
Theorem checkout_session_lines name phone addressLine1 st cs :
  (startStripeCheckout name phone addressLine1 st).1 = Some cs ->
  cart st <> [] /\ name <> "" /\ phone <> "" /\
  cs_fulfilment cs = getCurrentOrderType st /\
  exists extra,
    simplifiedCart cs = map orderLine (cart st) ++ extra /\
    (extra = [] \/
     getCurrentOrderType st = "delivery" /\ addressLine1 <> "" /\
     (0 <? Num.round (Num.or_else (deliveryFee st) 0 * 100)) = true /\
     extra = [ {| l_id := "delivery_fee"; l_name := "Delivery fee";
                  l_unitPrice := Num.round (Num.or_else (deliveryFee st) 0 * 100);
                  l_quantity := 1; l_sauce := None; l_freeSide := None |} ]).
Proof.
  unfold startStripeCheckout.
  destruct (cart st) as [|ci l] eqn:Hcart; [done|].
  destruct (String.eqb name "") eqn:Hname; [done|].
  destruct (String.eqb phone "") eqn:Hphone; [done|].
  cbn [orb].
  destruct (String.eqb (getCurrentOrderType st) "delivery" && String.eqb addressLine1 "")
    eqn:Haddr; [done|].
  destruct (computeTotals st) as [totals st'] eqn:Htotals.
  assert (Hfees : Storefront.fees totals = 0) by (by injection Htotals as <- _).
  assert (Hfee : t_deliveryFee totals
                 = if String.eqb (getCurrentOrderType st) "delivery"
                   then Num.or_else (deliveryFee st) 0 else 0).
  { injection Htotals as <- _. cbn [t_deliveryFee].
    by destruct (negb _), (String.eqb _ "delivery"). }
  assert (Hcart' : cart st' = cart st).
  { replace st' with (computeTotals st).2 by by rewrite Htotals.
    apply computeTotals_frame. }
  rewrite Hfees, Hfee, Hcart', Hcart.
  change (0 <? Num.round (Num.or_else 0 0 * 100)) with false. cbv iota.
  intros [= <-]. cbn [cs_fulfilment simplifiedCart].
  split; [done|]. split; [by apply eqb_empty_false|]. split; [by apply eqb_empty_false|].
  split; [done|].
  destruct (String.eqb_spec (getCurrentOrderType st) "delivery") as [Hot|Hot].
  - rewrite or_else_or_else.
    destruct (0 <? Num.round (Num.or_else (deliveryFee st) 0 * 100)) eqn:Hpos.
    + eexists. split; [reflexivity|]. right. repeat split; try done.
      cbn [andb] in Haddr. by apply eqb_empty_false.
    + exists []. split; [by rewrite app_nil_r|by left].
  - change (0 <? Num.round (Num.or_else 0 0 * 100)) with false. cbv iota.
    exists []. split; [by rewrite app_nil_r|by left].
Qed.

Module Checkout.

(** The request for the delivery of two orders of three wings, with a
    delivery fee of 5.00 and a tip of 2.00. *)
Definition session : CheckoutSession :=
  {| cs_fulfilment := "delivery"; tipCents := 200;
     simplifiedCart :=
       [ {| l_id := "chicken_wings"; l_name := "Chicken Wings – 3 wings";
            l_unitPrice := 1500; l_quantity := 2;
            l_sauce := Some "none"; l_freeSide := Some "jollof_rice" |};
         {| l_id := "delivery_fee"; l_name := "Delivery fee";
            l_unitPrice := 500; l_quantity := 1;
            l_sauce := None; l_freeSide := None |} ] |}.

End Checkout.

Lemma checkout_session_lines_witness :
  (startStripeCheckout "Ama" "2155550100" "5750 Baltimore Ave"
     (Scenario.with_fee_and_tip "delivery")).1 = Some Checkout.session /\
  cs_fulfilment Checkout.session = getCurrentOrderType (Scenario.with_fee_and_tip "delivery") /\
  exists extra,
    simplifiedCart Checkout.session
    = map orderLine (cart (Scenario.with_fee_and_tip "delivery")) ++ extra.
Proof.
  assert (H : (startStripeCheckout "Ama" "2155550100" "5750 Baltimore Ave"
                 (Scenario.with_fee_and_tip "delivery")).1 = Some Checkout.session)
    by (vm_compute; reflexivity).
  split; [exact H|].
  destruct (checkout_session_lines _ _ _ _ _ H) as (_ & _ & _ & Hf & extra & Hlines & _).
  split; [exact Hf|]. exists extra. exact Hlines.
Defined.


Module InStore.

(** One order of three wings in the cart of a customer at the
    restaurant, the order type being in-store. *)
Definition three_wings_in_store : State :=
  addToCart Scenario.chicken_wings (Some Scenario.three_wings) (Scenario.start "inline").

Definition at_the_restaurant : Geolocation :=
  Position (lat restaurantCoords) (lon restaurantCoords).

Definition request : LineOrder :=
  {| lo_items := [ {| l_id := "chicken_wings"; l_name := "Chicken Wings – 3 wings";
                      l_unitPrice := 1300; l_quantity := 1;
                      l_sauce := Some "none"; l_freeSide := Some "jollof_rice" |} ];
     lo_subtotal := 1300; lo_deliveryFee := 0; lo_fees := 0; lo_total := 1300 |}.

End InStore.


Lemma add_zero_r x : Prim2SF x <> S754_zero true -> x + 0 = x.
Proof.
  intros Hx. apply Prim2SF_inj. rewrite add_spec.
  change (Prim2SF 0) with (S754_zero false).
  by destruct (Prim2SF x) as [[]|[]| |s m e].
Qed.

Lemma Prim2SF_neg_zero x : Prim2SF x = S754_zero true -> x = (-0)%float.
Proof. intros Hx. apply Prim2SF_inj. by rewrite Hx. Qed.

(** X22. The total of an in-store order is its subtotal: when the order
    type checked is not delivery, the total of the request that
    [submitInlineOrder] sends equals its subtotal (as numbers of cents,
    unless the subtotal is NaN), nothing being added to the prices of the
    lines. *)
Theorem in_store_order_total {M : MathLib} name phone geo userCoords st lo :
  getCurrentOrderType st <> "delivery" ->
  (submitInlineOrder name phone geo userCoords st).1.1 = Some lo ->
  PrimFloat.is_nan (lo_subtotal lo) = false ->
  Num.strict_eq (lo_total lo) (lo_subtotal lo) = true.
Proof.
  intros Hot. unfold submitInlineOrder.
  destruct (String.eqb name "" || String.eqb phone ""); [done|].
  destruct (cart st) as [|ci l] eqn:Hcart; [done|].
  destruct (inlinePreviewMode st); [done|].
  destruct (requireInlineProximity false geo userCoords st) as [[uc st1] ok] eqn:Hnear.
  destruct ok; [|done]. cbn [negb].
  assert (Hst1 : cart st1 = cart st /\ getCurrentOrderType st1 = getCurrentOrderType st).
  { unfold requireInlineProximity in Hnear. destruct geo; [done..|].
    destruct (_ <=? _); by injection Hnear as _ <-. }
  destruct Hst1 as [Hcart1 Hot1].
  destruct (computeTotals st1) as [totals st'] eqn:Htotals.
  cbn [fst snd]. intros [= <-]. cbn [lo_total lo_subtotal].
  assert (Hgrand : grand totals = subtotal totals + 0 + 0 + 0).
  { injection Htotals as <- _. cbn [grand subtotal]. rewrite Hot1.
    apply String.eqb_neq in Hot. by rewrite Hot. }
  rewrite Hgrand. intros Hnan.
  destruct (Prim2SF (subtotal totals)) as [[]| | |] eqn:Hs.
  1:{ apply Prim2SF_neg_zero in Hs. rewrite Hs. vm_compute. reflexivity. }
  all: rewrite (add_zero_r (subtotal totals)) by (rewrite Hs; done);
       rewrite !(add_zero_r (subtotal totals)) by (rewrite Hs; done);
       by apply NumFacts.eqb_refl.
Qed.

Lemma in_store_order_total_witness :
  Num.strict_eq (lo_total InStore.request) (lo_subtotal InStore.request) = true.
Proof.
  apply (in_store_order_total (M := SmallAngle.math) "Ama" "2155550100"
           InStore.at_the_restaurant None InStore.three_wings_in_store InStore.request).
  - vm_compute. discriminate.
  - vm_compute. reflexivity.
  - vm_compute. reflexivity.
Defined.

(** ** Edge cases of the prices *)

Lemma not_finite_cases x :
  PrimFloat.is_finite x = false -> x = nan \/ x = infinity \/ x = neg_infinity.
Proof.
  intros Hx. destruct (Prim2SF x) as [s|s| |s m e] eqn:Hsf.
  - pose proof (NumFacts.within_is_finite x 0) as H. rewrite Hsf in H.
    rewrite H in Hx by done. done.
  - right. destruct s; [right|left]; apply Prim2SF_inj; by rewrite Hsf.
  - left. apply Prim2SF_inj. by rewrite Hsf.
  - pose proof (NumFacts.within_is_finite x e) as H. rewrite Hsf in H.
    rewrite H in Hx by (cbn; lia). done.
Qed.

(** X23. A price that is not a finite number passes through the in-store
    rule unchanged: for NaN and for the two infinities
    [computeInlineBasePrice] returns the price it was given (no cents are
    found to remove), for every item but the four single-piece sides,
    whose in-store price is 3.00 whatever the price given. *)
Theorem computeInlineBasePrice_not_finite basePrice itemId :
  Num.isFinite basePrice = false ->
  computeInlineBasePrice basePrice itemId
  = if includes single_piece_sides itemId then 3 else basePrice.
Proof.
  intros Hfin. unfold computeInlineBasePrice.
  destruct (includes single_piece_sides itemId); [done|].
  destruct (not_finite_cases _ Hfin) as [->|[->| ->]]; vm_compute; reflexivity.
Qed.

Lemma computeInlineBasePrice_not_finite_witness :
  computeInlineBasePrice infinity "salmon" = infinity /\
  computeInlineBasePrice nan "side_beef_kabob" = 3.
Proof.
  split.
  - apply (computeInlineBasePrice_not_finite infinity "salmon"). reflexivity.
  - apply (computeInlineBasePrice_not_finite nan "side_beef_kabob"). reflexivity.
Defined.

Lemma cart_subtotal_snoc c line :
  cart_subtotal (c ++ [line]) = cart_subtotal c + price line * quantity line.
Proof. unfold cart_subtotal. by rewrite foldl_app. Qed.

(** X24. Adding a new line raises the subtotal by its price: while
    ordering is open, when the cart has no line for the item and portion
    key added, the subtotal that [computeTotals] returns after
    [addToCart] is the subtotal before plus one time the unit price of
    the item for the order type checked. *)
Theorem subtotal_after_new_line item po st :
  orderingClosed st = false ->
  list_find (same_line (MenuData.id item) (key <$> po)) (cart st) = None ->
  subtotal (computeTotals (addToCart item po st)).1
  = subtotal (computeTotals st).1 + effectivePrice item po st * 1.
Proof.
  intros Hopen Hfind.
  destruct (addToCart_touches item po st Hopen)
    as (idx & line & _ & _ & _ & _ & Hprice & _ & Hold).
  destruct (cart st !! idx) as [old|].
  { destruct Hold as (Hfind' & _). congruence. }
  destruct Hold as (_ & _ & Hquantity & Hcart).
  unfold computeTotals. cbn [fst subtotal].
  by rewrite Hcart, cart_subtotal_snoc, Hprice, Hquantity.
Qed.

Lemma subtotal_after_new_line_witness :
  subtotal (computeTotals (addToCart Scenario.chicken_wings (Some Scenario.three_wings)
                             (Scenario.start "inline"))).1
  = subtotal (computeTotals (Scenario.start "inline")).1
    + effectivePrice Scenario.chicken_wings (Some Scenario.three_wings)
        (Scenario.start "inline") * 1.
Proof.
  apply (subtotal_after_new_line Scenario.chicken_wings (Some Scenario.three_wings)
           (Scenario.start "inline")); reflexivity.
Defined.

(** X25. The portion a card prices is one of the item's own: for an item
    with portion options, [getPortionPriceForOrderType] always returns an
    option and a price, whatever it is given as index or key. The option
    has the key and the label of one of the item's options: the one at
    the index or with the key given, and the first one when there is
    none (an index out of range, a number that is no index, an unknown
    key, any other value). Its prices are those
    [getEffectivePricingForItem] gives for that key, and the price
    returned is the in-store one for an in-store order and the online one
    otherwise. *)
Theorem portion_priced_is_an_option itemId options v orderType overrides :
  portionOptions !! itemId = Some options ->
  exists opt pricing,
    opt ∈ options /\
    getEffectivePricingForItem itemId nan (Some (key opt)) overrides = Some pricing /\
    getPortionPriceForOrderType itemId v orderType overrides
    = Some ({| key := key opt; label := label opt;
               onlinePrice := online pricing; inlinePrice := inline pricing |},
            if String.eqb orderType "inline" then inline pricing else online pricing) /\
    match v with
    | JS.Number x => at_number options x = Some opt \/
                     at_number options x = None /\ head options = Some opt
    | JS.Str k => List.find (fun o => String.eqb (key o) k) options = Some opt \/
                  List.find (fun o => String.eqb (key o) k) options = None
                  /\ head options = Some opt
    | _ => head options = Some opt
    end.
Proof.
  intros Hopts. unfold getPortionPriceForOrderType. rewrite Hopts.
  destruct options as [|first rest]; [by apply portionOptions_nonempty in Hopts|].
  set (options := first :: rest) in *.
  set (opt := match v with
              | JS.Number x => default first (at_number options x)
              | JS.Str k => default first (List.find (fun o => String.eqb (key o) k) options)
              | _ => first
              end).
  assert (Hsel : opt ∈ options /\
                 match v with
                 | JS.Number x => at_number options x = Some opt \/
                                  at_number options x = None /\ head options = Some opt
                 | JS.Str k => List.find (fun o => String.eqb (key o) k) options = Some opt \/
                               List.find (fun o => String.eqb (key o) k) options = None
                               /\ head options = Some opt
                 | _ => head options = Some opt
                 end).
  { subst opt. destruct v as [| | |x|k| |]; try (split; [by left|done]).
    - destruct (at_number options x) as [o|] eqn:Hx.
      + split; [by eapply at_number_elem_of|by left].
      + split; [by left|by right].
    - destruct (List.find _ options) as [o|] eqn:Hk.
      + split; [by eapply find_elem_of|by left].
      + split; [by left|by right]. }
  destruct Hsel as [Hin Hsel].
  destruct (getEffectivePricingForItem_options itemId nan (Some (key opt)) overrides
              _ _ Hopts) as [pricing Hpricing].
  rewrite Hpricing. by exists opt, pricing.
Qed.

Lemma portion_priced_is_an_option_witness :
  exists opt pricing,
    opt ∈ kabob_portions /\
    getEffectivePricingForItem "beef_kabobs" nan (Some (key opt)) empty_overrides
    = Some pricing /\
    getPortionPriceForOrderType "beef_kabobs" (JS.Number 7) "inline" empty_overrides
    = Some ({| key := key opt; label := label opt;
               onlinePrice := online pricing; inlinePrice := inline pricing |},
            if String.eqb "inline" "inline" then inline pricing else online pricing) /\
    (at_number kabob_portions 7 = Some opt \/
     at_number kabob_portions 7 = None /\ head kabob_portions = Some opt).
Proof.
  apply (portion_priced_is_an_option "beef_kabobs" kabob_portions (JS.Number 7) "inline"
           empty_overrides).
  vm_compute. reflexivity.
Defined.
